(** * PN532 frame protocol engine (scripts/pn532_controller.py)

    A shallow embedding of the [PN532Controller] class: the frame codec
    ([_build_frame], [_read_frame]), the command channel ([send_command])
    and the command set entries [read_passive_target], [transceive_apdu]
    and [_identify_card_type].

    Python values are modelled as follows.
    - [bytes] is [list byte]; an [int] is a [Z].
    - An exception is a constructor of [exn]; a computation that may raise
      returns a [result].
    - A method of the controller is a state transformer over the record
      [self], which holds the serial handle, the [debug] attribute and the
      history of the effects performed so far (bytes written, reads issued
      with what they returned, lines printed).
    - The pyserial handle is an interface ([Transport]); [MockSerial] is the
      in-memory implementation used to run the model. *)

From Stdlib Require Import ZArith List String Ascii Lia Bool.
From Stdlib Require Import Strings.Byte.
From Stdlib Require DecimalString.
From ExtLib Require Import Structures.Monad.
Import ListNotations.
Import MonadNotation.
Local Open Scope Z_scope.
Local Open Scope monad_scope.

(** ** Python values *)

Definition bytes : Type := list byte.

(** The integer a byte stands for: [b[i]] on a Python [bytes] object. *)
Definition int_of_byte (b : byte) : Z := Z.of_N (Byte.to_N b).

Inductive exn : Type :=
| ValueError
| IndexError.

Inductive result (A : Type) : Type :=
| Ok (a : A)
| Raise (e : exn).

Arguments Ok {A} a.
Arguments Raise {A} e.

#[export] Instance Monad_result : Monad result :=
  {| ret := fun _ a => Ok a;
     bind := fun _ _ m k => match m with Ok a => k a | Raise e => Raise e end |}.

(** [len(x)] *)
Definition len {A : Type} (l : list A) : Z := Z.of_nat (List.length l).

(** One element of [bytes([...])]: a value outside [range(256)] raises
    [ValueError]. *)
Definition byte_of_int (z : Z) : result byte :=
  if (0 <=? z) && (z <? 256)
  then match Byte.of_N (Z.to_N z) with
       | Some b => Ok b
       | None => Raise ValueError
       end
  else Raise ValueError.

(** [bytes(l)] for a list of ints. *)
Fixpoint bytes_of (l : list Z) : result bytes :=
  match l with
  | [] => Ok []
  | z :: t =>
      b <- byte_of_int z ;;
      bs <- bytes_of t ;;
      ret (b :: bs)
  end.

(** [sum(x)] on a [bytes] object: left to right from 0. *)
Definition sum (bs : bytes) : Z :=
  fold_left (fun acc b => acc + int_of_byte b) bs 0.

(** [x[i]] on a [bytes] object; negative indices count from the end, an
    index out of range raises [IndexError]. *)
Definition getitem (bs : bytes) (i : Z) : result Z :=
  let k := if i <? 0 then i + len bs else i in
  if (k <? 0) || (len bs <=? k)
  then Raise IndexError
  else match nth_error bs (Z.to_nat k) with
       | Some b => Ok (int_of_byte b)
       | None => Raise IndexError
       end.

(** A slice bound brought into [0 .. len]. *)
Definition clamp (n k : Z) : Z :=
  if k <? 0 then Z.max (k + n) 0 else Z.min k n.

(** [x[lo:hi]]; a missing bound is [None]. Slices never raise. *)
Definition slice (bs : bytes) (lo hi : option Z) : bytes :=
  let a := match lo with Some k => clamp (len bs) k | None => 0 end in
  let b := match hi with Some k => clamp (len bs) k | None => len bs end in
  firstn (Z.to_nat (b - a)) (skipn (Z.to_nat a) bs).

(** Truth value of an [Optional[bytes]]: [None] and [b''] are false. *)
Definition truthy (r : option bytes) : bool :=
  match r with
  | Some (_ :: _) => true
  | _ => false
  end.

Definition bytes_eqb (x y : bytes) : bool :=
  if list_eq_dec Byte.byte_eq_dec x y then true else false.

(** *** Formatting *)

Fixpoint upper_hex (u : Hexadecimal.uint) : string :=
  match u with
  | Hexadecimal.Nil => EmptyString
  | Hexadecimal.D0 u => String "0" (upper_hex u)
  | Hexadecimal.D1 u => String "1" (upper_hex u)
  | Hexadecimal.D2 u => String "2" (upper_hex u)
  | Hexadecimal.D3 u => String "3" (upper_hex u)
  | Hexadecimal.D4 u => String "4" (upper_hex u)
  | Hexadecimal.D5 u => String "5" (upper_hex u)
  | Hexadecimal.D6 u => String "6" (upper_hex u)
  | Hexadecimal.D7 u => String "7" (upper_hex u)
  | Hexadecimal.D8 u => String "8" (upper_hex u)
  | Hexadecimal.D9 u => String "9" (upper_hex u)
  | Hexadecimal.Da u => String "A" (upper_hex u)
  | Hexadecimal.Db u => String "B" (upper_hex u)
  | Hexadecimal.Dc u => String "C" (upper_hex u)
  | Hexadecimal.Dd u => String "D" (upper_hex u)
  | Hexadecimal.De u => String "E" (upper_hex u)
  | Hexadecimal.Df u => String "F" (upper_hex u)
  end.

(** [f"{n:02X}"]: upper-case hexadecimal, sign first, zero-padded to two
    characters. *)
Definition format_02X (n : Z) : string :=
  match Z.to_hex_int n with
  | Hexadecimal.Pos u =>
      let s := upper_hex u in
      if (String.length s <? 2)%nat then String "0" s else s
  | Hexadecimal.Neg u => String "-" (upper_hex u)
  end.

(** [x.hex().upper()] on a [bytes] object. *)
Fixpoint hex_upper (bs : bytes) : string :=
  match bs with
  | [] => EmptyString
  | b :: t => String.append (format_02X (int_of_byte b)) (hex_upper t)
  end.

(** The ints that [f"{n}"] formats: CPython refuses to convert an int of
    more than 4300 decimal digits to text and raises [ValueError] instead
    (the default of [sys.int_info.default_max_str_digits]). *)
Definition formattable (n : Z) : Prop := Z.abs n < 10 ^ 4300.

(** [f"{n}"] for a [formattable] int. *)
Definition str_of_int (n : Z) : string :=
  DecimalString.NilZero.string_of_int (Z.to_int n).

(** ** Frame codec: encoder *)

(** Frame markers *)
Definition PREAMBLE : bytes := [x00].
Definition STARTCODE1 : bytes := [x00].
Definition STARTCODE2 : bytes := [xff].
Definition POSTAMBLE : bytes := [x00].

(** ACK/NACK *)
Definition ACK : bytes := [x00; x00; xff; x00; xff; x00].
Definition NACK : bytes := [x00; x00; xff; xff; x00; x00].

(** PN532 commands *)
Definition CMD_GET_FIRMWARE_VERSION : bytes := [x02].
Definition CMD_IN_LIST_PASSIVE_TARGET : bytes := [x4a].
Definition CMD_IN_DATA_EXCHANGE : bytes := [x40].

(** [_build_frame(data)]. The three [bytes([...])] conversions are evaluated
    in the order in which the concatenation meets them. *)
Definition _build_frame (data : bytes) : result bytes :=
  let length := len data + 1 in
  let lcs := Z.land (Z.lnot length + 1) 255 in
  let tfi : bytes := [xd4] in
  let checksum_data := tfi ++ data in
  let dcs := Z.land (Z.lnot (sum checksum_data) + 1) 255 in
  b_length <- bytes_of [length] ;;
  b_lcs <- bytes_of [lcs] ;;
  b_dcs <- bytes_of [dcs] ;;
  ret (PREAMBLE ++ STARTCODE1 ++ STARTCODE2 ++ b_length ++ b_lcs ++
       tfi ++ data ++ b_dcs ++ POSTAMBLE).

(** ** Card-type classification *)

(** [_identify_card_type(sak)] *)
Definition _identify_card_type (sak : Z) : string :=
  if negb (Z.land sak 0x20 =? 0) then "ISO14443-4 (EMV/Smart Card)"
  else if sak =? 0x08 then "MIFARE Classic 1K"
  else if sak =? 0x18 then "MIFARE Classic 4K"
  else if sak =? 0x00 then "MIFARE Ultralight"
  else if sak =? 0x10 then "MIFARE Plus"
  else String.append "Unknown (SAK: 0x" (String.append (format_02X sak) ")").

(** ** The serial handle *)

(** What the controller uses of [serial.Serial]: [write(data)] and
    [read(size)], which returns at most [size] bytes and fewer when the
    timeout expires first. *)
Class Transport (P : Type) : Type := {
  tr_write : bytes -> P -> P;
  tr_read : Z -> P -> bytes * P;
  tr_read_le : forall n p, 0 <= n -> len (fst (tr_read n p)) <= n
}.

(** An effect the controller has performed on the outside world. *)
Inductive effect : Type :=
| Write (data : bytes)
| Read (size : Z) (got : bytes)
| Print (line : string).

(** The dict returned by [read_passive_target]; field [ci_k] is key ['k']. *)
Record card_info : Type := {
  ci_target_number : Z;
  ci_sens_res : string;
  ci_sel_res : string;
  ci_uid_length : Z;
  ci_uid : string;
  ci_card_type : string
}.

Definition nl : string := String (ascii_of_nat 10) EmptyString.

(** [f"\n🔍 Scanning for ISO14443A cards (max: {max_targets})..."] *)
Definition scanning_line (max_targets : Z) : string :=
  String.append nl
    (String.append "🔍 Scanning for ISO14443A cards (max: "
       (String.append (str_of_int max_targets) ")...")).

Section Controller.

Context {P : Type} {T : Transport P}.

(** The attributes of a connected controller that the methods below use,
    and the effects performed so far, oldest first. *)
Record self : Type := {
  serial : P;
  debug : bool;
  history : list effect
}.

(** A method body: it may raise, and the state it leaves behind is kept
    in both cases. *)
Record M (A : Type) : Type := mkM { run : self -> result A * self }.

Arguments mkM {A} run.
Arguments run {A} m s.

#[export] Instance Monad_M : Monad M :=
  {| ret := fun _ a => mkM (fun s => (Ok a, s));
     bind := fun _ _ m k =>
       mkM (fun s => match run m s with
                     | (Ok a, s') => run (k a) s'
                     | (Raise e, s') => (Raise e, s')
                     end) |}.

Definition lift {A : Type} (r : result A) : M A := mkM (fun s => (r, s)).

Definition record (e : effect) (s : self) : self :=
  {| serial := serial s; debug := debug s; history := history s ++ [e] |}.

(** [self.debug] *)
Definition get_debug : M bool := mkM (fun s => (Ok (debug s), s)).

(** [print(line)] *)
Definition print (line : string) : M unit :=
  mkM (fun s => (Ok tt, record (Print line) s)).

(** [self.serial.write(data)] *)
Definition serial_write (data : bytes) : M unit :=
  mkM (fun s =>
    (Ok tt, record (Write data)
              {| serial := tr_write data (serial s);
                 debug := debug s; history := history s |})).

(** [self.serial.read(size)] *)
Definition serial_read (size : Z) : M bytes :=
  mkM (fun s =>
    let (got, p) := tr_read size (serial s) in
    (Ok got, record (Read size got)
               {| serial := p; debug := debug s; history := history s |})).

(** [if cond: body] *)
Definition when (cond : bool) (body : M unit) : M unit :=
  if cond then body else ret tt.

(** ** Frame codec: decoder *)

(** [_read_frame()] *)
Definition _read_frame : M (option bytes) :=
  header <- serial_read 3 ;;
  if len header <? 3 then ret None
  else if negb (bytes_eqb header (PREAMBLE ++ STARTCODE1 ++ STARTCODE2)) then
    print (String.append "⚠️ Invalid header: " (hex_upper header)) ;;
    ret None
  else
    len_lcs <- serial_read 2 ;;
    if len len_lcs <? 2 then ret None
    else
      length <- lift (getitem len_lcs 0) ;;
      lcs <- lift (getitem len_lcs 1) ;;
      if negb (Z.land (length + lcs) 255 =? 0) then
        print "⚠️ Invalid LCS" ;;
        ret None
      else
        data_dcs <- serial_read (length + 1) ;;
        if len data_dcs <? length + 1 then ret None
        else
          tfi <- lift (getitem data_dcs 0) ;;
          let data := slice data_dcs (Some 1) (Some (-1)) in
          dcs <- lift (getitem data_dcs (-1)) ;;
          let checksum := Z.land (tfi + sum data + dcs) 255 in
          if negb (checksum =? 0) then
            print "⚠️ Invalid DCS" ;;
            ret None
          else
            postamble <- serial_read 1 ;;
            ret (Some data).

(** ** Command channel *)

(** [send_command(command, params)] *)
Definition send_command (command params : bytes) : M (option bytes) :=
  frame <- lift (_build_frame (command ++ params)) ;;
  dbg <- get_debug ;;
  when dbg (print (String.append "📤 TX: " (hex_upper frame))) ;;
  serial_write frame ;;
  ack <- serial_read 6 ;;
  if negb (bytes_eqb ack ACK) then
    print (String.append "⚠️ Expected ACK, got: " (hex_upper ack)) ;;
    ret None
  else
    dbg <- get_debug ;;
    when dbg (print "✓ ACK received") ;;
    response <- _read_frame ;;
    dbg <- get_debug ;;
    match response with
    | Some r =>
        when (truthy response && dbg)
             (print (String.append "📥 RX: " (hex_upper r)))
    | None => ret tt
    end ;;
    ret response.

(** ** Command set *)

(** [read_passive_target(card_type, max_targets)] *)
Definition read_passive_target (card_type max_targets : Z)
  : M (option card_info) :=
  dbg <- get_debug ;;
  when dbg (print (scanning_line max_targets)) ;;
  params <- lift (bytes_of [max_targets; card_type]) ;;
  response <- send_command CMD_IN_LIST_PASSIVE_TARGET params ;;
  match response with
  | Some r =>
      if negb (truthy response) || (len r <? 2) then
        dbg <- get_debug ;;
        when dbg (print "❌ No cards detected") ;;
        ret None
      else
        num_targets <- lift (getitem r 0) ;;
        if num_targets =? 0 then
          dbg <- get_debug ;;
          when dbg (print "❌ No cards detected") ;;
          ret None
        else
          target_number <- lift (getitem r 1) ;;
          let sens_res := slice r (Some 2) (Some 4) in
          sel_res <- lift (getitem r 4) ;;
          uid_length <- lift (getitem r 5) ;;
          let uid := slice r (Some 6) (Some (6 + uid_length)) in
          let info :=
            {| ci_target_number := target_number;
               ci_sens_res := hex_upper sens_res;
               ci_sel_res := format_02X sel_res;
               ci_uid_length := uid_length;
               ci_uid := hex_upper uid;
               ci_card_type := _identify_card_type sel_res |} in
          dbg <- get_debug ;;
          when dbg
            (print "✅ Card detected!" ;;
             print (String.append "   UID: " (ci_uid info)) ;;
             print (String.append "   Type: " (ci_card_type info)) ;;
             print (String.append "   SENS_RES: " (ci_sens_res info)) ;;
             print (String.append "   SEL_RES: " (ci_sel_res info))) ;;
          ret (Some info)
  | None =>
      dbg <- get_debug ;;
      when dbg (print "❌ No cards detected") ;;
      ret None
  end.

(** [transceive_apdu(target, apdu)] *)
Definition transceive_apdu (target : Z) (apdu : bytes) : M (option bytes) :=
  dbg <- get_debug ;;
  when dbg
    (print (String.append nl "💬 Transceiving APDU:") ;;
     print (String.append "   Command: " (hex_upper apdu))) ;;
  b_target <- lift (bytes_of [target]) ;;
  let params := b_target ++ apdu in
  response <- send_command CMD_IN_DATA_EXCHANGE params ;;
  match response with
  | Some r =>
      if negb (truthy response) || (len r <? 2) then
        dbg <- get_debug ;;
        when dbg (print "❌ No response") ;;
        ret None
      else
        status <- lift (getitem r 0) ;;
        let data := slice r (Some 1) None in
        if negb (status =? 0) then
          dbg <- get_debug ;;
          when dbg (print (String.append "⚠️ Error status: 0x"
                             (format_02X status))) ;;
          ret None
        else
          dbg <- get_debug ;;
          when dbg
            (print (String.append "   Response: " (hex_upper data)) ;;
             when (2 <=? len data)
               (sw1 <- lift (getitem data (-2)) ;;
                sw2 <- lift (getitem data (-1)) ;;
                print (String.append "   Status Word: "
                         (String.append (format_02X sw1) (format_02X sw2))))) ;;
          ret (Some data)
  | None =>
      dbg <- get_debug ;;
      when dbg (print "❌ No response") ;;
      ret None
  end.

End Controller.

Arguments self P : clear implicits.
Arguments M P A : clear implicits.
Arguments mkM {P A} run.
Arguments run {P A} m s.

(** ** The rest of the command set *)

Definition CMD_SAM_CONFIGURATION : bytes := [x14].
Definition CMD_IN_RELEASE : bytes := [x52].
Definition CMD_TG_INIT_AS_TARGET : bytes := [x8c].
Definition CMD_TG_GET_DATA : bytes := [x86].
Definition CMD_TG_SET_DATA : bytes := [x8e].

(** The value of a hexadecimal digit, either case. *)
Definition hex_val (c : ascii) : option Z :=
  let n := Z.of_nat (nat_of_ascii c) in
  if (48 <=? n) && (n <=? 57) then Some (n - 48)
  else if (65 <=? n) && (n <=? 70) then Some (n - 55)
  else if (97 <=? n) && (n <=? 102) then Some (n - 87)
  else None.

(** ASCII whitespace: space, tab, line feed, vertical tab, form feed,
    carriage return. *)
Definition is_space (c : ascii) : bool :=
  let n := Z.of_nat (nat_of_ascii c) in
  (n =? 32) || ((9 <=? n) && (n <=? 13)).

(** [bytes.fromhex(s)]: two digits per byte, whitespace between bytes is
    skipped, anything else raises [ValueError]. *)
Fixpoint fromhex (s : string) : result bytes :=
  match s with
  | EmptyString => Ok []
  | String c1 rest =>
      if is_space c1 then fromhex rest
      else match rest with
           | String c2 rest' =>
               match hex_val c1, hex_val c2 with
               | Some h, Some l =>
                   b <- byte_of_int (16 * h + l) ;;
                   bs <- fromhex rest' ;;
                   ret (b :: bs)
               | _, _ => Raise ValueError
               end
           | EmptyString => Raise ValueError
           end
  end.

(** [f"v{ver}.{rev} (IC: 0x{ic:02X}, Support: 0x{support:02X})"] *)
Definition version_string (ic ver rev support : Z) : string :=
  String.append "v"
    (String.append (str_of_int ver)
       (String.append "."
          (String.append (str_of_int rev)
             (String.append " (IC: 0x"
                (String.append (format_02X ic)
                   (String.append ", Support: 0x"
                      (String.append (format_02X support) ")"))))))).

(** [f"📤 Releasing target {target}..."] *)
Definition releasing_line (target : Z) : string :=
  String.append "📤 Releasing target "
    (String.append (str_of_int target) "...").

Section CommandSet.

Context {P : Type} {T : Transport P}.

(** [get_firmware_version()] *)
Definition get_firmware_version : M P (option string) :=
  response <- send_command CMD_GET_FIRMWARE_VERSION [] ;;
  match response with
  | Some r =>
      if truthy response && (4 <=? len r) then
        ic <- lift (getitem r 0) ;;
        ver <- lift (getitem r 1) ;;
        rev <- lift (getitem r 2) ;;
        support <- lift (getitem r 3) ;;
        let version := version_string ic ver rev support in
        ret (Some version)
      else ret None
  | None => ret None
  end.

(** [sam_configuration()]: the result is [response is not None]. *)
Definition sam_configuration : M P bool :=
  dbg <- get_debug ;;
  when dbg (print "🔧 Configuring SAM (Normal mode)...") ;;
  let params : bytes := [x01; x14; x01] in
  response <- send_command CMD_SAM_CONFIGURATION params ;;
  ret (match response with Some _ => true | None => false end).

(** [release_target(target)] *)
Definition release_target (target : Z) : M P unit :=
  dbg <- get_debug ;;
  when dbg (print (releasing_line target)) ;;
  params <- lift (bytes_of [target]) ;;
  _ <- send_command CMD_IN_RELEASE params ;;
  ret tt.

(** [init_as_target()] *)
Definition init_as_target : M P bool :=
  dbg <- get_debug ;;
  when dbg (print (String.append nl "🎭 Initializing card emulation mode...")) ;;
  let mode := 0x04 in
  let sens_res : bytes := [x00; x04] in
  let uid : bytes := [x08; x12; x34; x56] in
  let sel_res : bytes := [x20] in
  b_mode <- lift (bytes_of [mode]) ;;
  let params := b_mode ++ sens_res ++ uid ++ sel_res in
  let params := params ++ [x00; x00; x00] in
  let params := params ++ [x00] in
  let params := params ++ [x00] in
  let params := params ++ [x00] in
  response <- send_command CMD_TG_INIT_AS_TARGET params ;;
  if truthy response then
    print "✅ Card emulation mode active" ;;
    print "   Phone can now read this PN532 as a card" ;;
    ret true
  else
    print "❌ Failed to enter emulation mode" ;;
    ret false.

(** [get_target_data()] *)
Definition get_target_data : M P (option bytes) :=
  response <- send_command CMD_TG_GET_DATA [] ;;
  match response with
  | Some r =>
      if truthy response && (1 <? len r) then
        status <- lift (getitem r 0) ;;
        let data := slice r (Some 1) None in
        if status =? 0 then
          dbg <- get_debug ;;
          when dbg (print (String.append "📥 Received from phone: "
                             (hex_upper data))) ;;
          ret (Some data)
        else ret None
      else ret None
  | None => ret None
  end.

(** [set_target_data(data)] *)
Definition set_target_data (data : bytes) : M P bool :=
  let params := data in
  response <- send_command CMD_TG_SET_DATA params ;;
  match response with
  | Some r =>
      if truthy response then
        first <- lift (getitem r 0) ;;
        if first =? 0 then
          dbg <- get_debug ;;
          when dbg (print (String.append "📤 Sent to phone: "
                             (hex_upper data))) ;;
          ret true
        else ret false
      else ret false
  | None => ret false
  end.

(** [TestScenarios.test_emv_commands(target)], on the controller it holds. *)
Definition test_emv_commands (target : Z) : M P unit :=
  print (String.append nl "📋 Testing EMV commands...") ;;
  select_ppse <- lift (fromhex "00A404000E325041592E5359532E444446303100") ;;
  response <- transceive_apdu target select_ppse ;;
  if truthy response then print "✅ SELECT PPSE successful"
  else print "❌ SELECT PPSE failed".

End CommandSet.

(** ** An in-memory serial handle *)

(** [rx] holds the bytes that arrive before any timeout, in order; a read
    takes them from the front and comes back short when they run out. [tx]
    collects what was written. *)
Record MockSerial : Type := {
  rx : bytes;
  tx : bytes
}.

Definition mock_write (data : bytes) (p : MockSerial) : MockSerial :=
  {| rx := rx p; tx := tx p ++ data |}.

Definition mock_read (size : Z) (p : MockSerial) : bytes * MockSerial :=
  (firstn (Z.to_nat size) (rx p),
   {| rx := skipn (Z.to_nat size) (rx p); tx := tx p |}).

Lemma mock_read_le (n : Z) (p : MockSerial) :
  0 <= n -> len (fst (mock_read n p)) <= n.
Proof.
  intros Hn. unfold mock_read, len. simpl.
  pose proof (firstn_le_length (Z.to_nat n) (rx p)). lia.
Qed.

#[export] Instance Transport_MockSerial : Transport MockSerial :=
  {| tr_write := mock_write; tr_read := mock_read; tr_read_le := mock_read_le |}.

(** A controller on a mock handle that will receive [input]. *)
Definition mock (dbg : bool) (input : bytes) : self MockSerial :=
  {| serial := {| rx := input; tx := [] |}; debug := dbg; history := [] |}.

(** ** Observing the effects of a call *)

(** The effects performed between state [s] and a later state [s']. *)
Definition performed {P : Type} (s s' : self P) : list effect :=
  skipn (List.length (history s)) (history s').

(** The reads among some effects: requested size and bytes returned. *)
Fixpoint reads (l : list effect) : list (Z * bytes) :=
  match l with
  | [] => []
  | Read size got :: t => (size, got) :: reads t
  | _ :: t => reads t
  end.

(** The frames written among some effects. *)
Fixpoint writes (l : list effect) : list bytes :=
  match l with
  | [] => []
  | Write data :: t => data :: writes t
  | _ :: t => writes t
  end.

(** The lines printed among some effects. *)
Fixpoint printed (l : list effect) : list string :=
  match l with
  | [] => []
  | Print line :: t => line :: printed t
  | _ :: t => printed t
  end.

(** State [s] after the lines [l] of an [if self.debug:] block. *)
Definition say {P : Type} (l : list string) (s : self P) : self P :=
  if debug s
  then {| serial := serial s; debug := debug s;
          history := history s ++ map Print l |}
  else s.

(** The two lines [transceive_apdu] opens with in debug mode. *)
Definition transceiving_lines (apdu : bytes) : list string :=
  [String.append nl "💬 Transceiving APDU:";
   String.append "   Command: " (hex_upper apdu)].

(** The values a byte can take, for exhaustive checks. *)
Definition byte_values : list Z := map Z.of_nat (seq 0 256).

Section Paths.

Context {P : Type} {T : Transport P}.

(** State [s] after further effects [l] that left the handle as [p]. *)
Definition after (s : self P) (p : P) (l : list effect) : self P :=
  {| serial := p; debug := debug s; history := history s ++ l |}.

Definition HEADER : bytes := PREAMBLE ++ STARTCODE1 ++ STARTCODE2.

(** The seven ways through [_read_frame], each with the reads it issues, the
    value it returns and the state it leaves. *)
Inductive read_frame_path (s : self P) : option bytes -> self P -> Prop :=
| rf_short_header header p1 :
    tr_read 3 (serial s) = (header, p1) ->
    len header < 3 ->
    read_frame_path s None (after s p1 [Read 3 header])
| rf_bad_header header p1 :
    tr_read 3 (serial s) = (header, p1) ->
    3 <= len header ->
    header <> HEADER ->
    read_frame_path s None
      (after s p1
         [Read 3 header;
          Print (String.append "⚠️ Invalid header: " (hex_upper header))])
| rf_short_length p1 len_lcs p2 :
    tr_read 3 (serial s) = (HEADER, p1) ->
    tr_read 2 p1 = (len_lcs, p2) ->
    len len_lcs < 2 ->
    read_frame_path s None (after s p2 [Read 3 HEADER; Read 2 len_lcs])
| rf_bad_lcs p1 len_lcs p2 length lcs :
    tr_read 3 (serial s) = (HEADER, p1) ->
    tr_read 2 p1 = (len_lcs, p2) ->
    2 <= len len_lcs ->
    getitem len_lcs 0 = Ok length ->
    getitem len_lcs 1 = Ok lcs ->
    Z.land (length + lcs) 255 <> 0 ->
    read_frame_path s None
      (after s p2 [Read 3 HEADER; Read 2 len_lcs; Print "⚠️ Invalid LCS"])
| rf_short_body p1 len_lcs p2 length lcs data_dcs p3 :
    tr_read 3 (serial s) = (HEADER, p1) ->
    tr_read 2 p1 = (len_lcs, p2) ->
    2 <= len len_lcs ->
    getitem len_lcs 0 = Ok length ->
    getitem len_lcs 1 = Ok lcs ->
    Z.land (length + lcs) 255 = 0 ->
    tr_read (length + 1) p2 = (data_dcs, p3) ->
    len data_dcs < length + 1 ->
    read_frame_path s None
      (after s p3
         [Read 3 HEADER; Read 2 len_lcs; Read (length + 1) data_dcs])
| rf_bad_dcs p1 len_lcs p2 length lcs data_dcs p3 tfi dcs :
    tr_read 3 (serial s) = (HEADER, p1) ->
    tr_read 2 p1 = (len_lcs, p2) ->
    2 <= len len_lcs ->
    getitem len_lcs 0 = Ok length ->
    getitem len_lcs 1 = Ok lcs ->
    Z.land (length + lcs) 255 = 0 ->
    tr_read (length + 1) p2 = (data_dcs, p3) ->
    length + 1 <= len data_dcs ->
    getitem data_dcs 0 = Ok tfi ->
    getitem data_dcs (-1) = Ok dcs ->
    Z.land (tfi + sum (slice data_dcs (Some 1) (Some (-1))) + dcs) 255 <> 0 ->
    read_frame_path s None
      (after s p3
         [Read 3 HEADER; Read 2 len_lcs; Read (length + 1) data_dcs;
          Print "⚠️ Invalid DCS"])
| rf_accept p1 len_lcs p2 length lcs data_dcs p3 tfi dcs postamble p4 :
    tr_read 3 (serial s) = (HEADER, p1) ->
    tr_read 2 p1 = (len_lcs, p2) ->
    2 <= len len_lcs ->
    getitem len_lcs 0 = Ok length ->
    getitem len_lcs 1 = Ok lcs ->
    Z.land (length + lcs) 255 = 0 ->
    tr_read (length + 1) p2 = (data_dcs, p3) ->
    length + 1 <= len data_dcs ->
    getitem data_dcs 0 = Ok tfi ->
    getitem data_dcs (-1) = Ok dcs ->
    Z.land (tfi + sum (slice data_dcs (Some 1) (Some (-1))) + dcs) 255 = 0 ->
    tr_read 1 p3 = (postamble, p4) ->
    read_frame_path s (Some (slice data_dcs (Some 1) (Some (-1))))
      (after s p4
         [Read 3 HEADER; Read 2 len_lcs; Read (length + 1) data_dcs;
          Read 1 postamble]).

End Paths.

(** Sample input streams: a frame of declared length 0 whose body byte is
    0x80; a frame of declared length 3 cut after two body bytes; and the ACK
    followed by a response frame whose data is [00 00] (no target), [01 01]
    (one target, nothing more), [01 00] and [02 00] (exchange status 1 and
    2). *)
Definition stream_zero_length : bytes := [x00; x00; xff; x00; x00; x80; x00].
Definition stream_truncated_body : bytes := [x00; x00; xff; x03; xfd; xd5; x01].
Definition stream_no_target : bytes :=
  ACK ++ [x00; x00; xff; x03; xfd; xd5; x00; x00; x2b; x00].
Definition stream_short_target : bytes :=
  ACK ++ [x00; x00; xff; x03; xfd; xd5; x01; x01; x29; x00].
Definition stream_status_1 : bytes :=
  ACK ++ [x00; x00; xff; x03; xfd; xd5; x01; x00; x2a; x00].
Definition stream_status_2 : bytes :=
  ACK ++ [x00; x00; xff; x03; xfd; xd5; x02; x00; x29; x00].

(** What [transceive_apdu] and [get_target_data] return for a response:
    the bytes after a zero status byte, if there are any. *)
Definition payload_of (response : option bytes) : option bytes :=
  match response with
  | Some (status :: b :: rest) =>
      if int_of_byte status =? 0 then Some (b :: rest) else None
  | _ => None
  end.

(** Further sample streams, each the ACK followed by a response frame: a
    card answer declaring a 7-byte UID of which 4 bytes are present; an
    exchange answer with status 0 and payload [90 00]; an answer made of the
    status byte 0 alone. *)
Definition stream_card_short_uid : bytes :=
  ACK ++ [x00; x00; xff; x0b; xf5; xd5; x01; x01; x00; x04; x08; x07;
          xde; xad; xbe; xef; xde; x00].
Definition stream_status_ok : bytes :=
  ACK ++ [x00; x00; xff; x04; xfc; xd5; x00; x90; x00; x9b; x00].
Definition stream_status_alone : bytes :=
  ACK ++ [x00; x00; xff; x02; xfe; xd5; x00; x2b; x00].

(** * Properties *)

(** ** Sample runs *)

Example build_frame_firmware :
  _build_frame CMD_GET_FIRMWARE_VERSION
  = Ok [x00; x00; xff; x02; xfe; xd4; x02; x2a; x00].
Proof. reflexivity. Qed.

Example format_02X_samples :
  format_02X 5 = "05"%string /\ format_02X 0x45 = "45"%string /\
  format_02X 0xAB = "AB"%string /\ format_02X 0x145 = "145"%string /\
  format_02X (-5) = "-5"%string /\ format_02X 0 = "00"%string.
Proof. repeat split; reflexivity. Qed.

Example slice_samples :
  slice [x01; x02; x03; x04] (Some 1) (Some (-1)) = [x02; x03] /\
  slice [x01] (Some 1) (Some (-1)) = [] /\
  slice [x01; x02; x03] (Some 2) (Some 4) = [x03] /\
  slice [x01; x02; x03] (Some 6) (Some 10) = [] /\
  slice [x01; x02; x03] (Some 1) None = [x02; x03].
Proof. repeat split; reflexivity. Qed.

Example getitem_samples :
  getitem [x0a; x0b] (-1) = Ok 11 /\ getitem [x0a; x0b] 1 = Ok 11 /\
  getitem [x0a; x0b] 2 = Raise IndexError /\
  getitem [x0a; x0b] (-3) = Raise IndexError.
Proof. repeat split; reflexivity. Qed.

(** A firmware query answered by ACK and a frame carrying [03 32 01 06 07]:
    the whole exchange, with its console lines. *)
Example send_command_firmware :
  run (send_command CMD_GET_FIRMWARE_VERSION [])
      (mock true (ACK ++ [x00; x00; xff; x06; xfa; xd5; x03; x32; x01; x06; x07;
                          xe8; x00]))
  = (Ok (Some [x03; x32; x01; x06; x07]),
     {| serial := {| rx := [];
                     tx := [x00; x00; xff; x02; xfe; xd4; x02; x2a; x00] |};
        debug := true;
        history :=
          [Print "📤 TX: 0000FF02FED4022A00";
           Write [x00; x00; xff; x02; xfe; xd4; x02; x2a; x00];
           Read 6 ACK;
           Print "✓ ACK received";
           Read 3 [x00; x00; xff];
           Read 2 [x06; xfa];
           Read 7 [xd5; x03; x32; x01; x06; x07; xe8];
           Read 1 [x00];
           Print "📥 RX: 0332010607"] |}).
Proof. reflexivity. Qed.

(** A card answer [01 01 00 04 08 04 DE AD BE EF] parsed into its fields. *)
Example read_passive_target_card :
  fst (run (read_passive_target 0 1)
         (mock false (ACK ++ [x00; x00; xff; x0b; xf5; xd5; x01; x01; x00; x04;
                              x08; x04; xde; xad; xbe; xef; xe1; x00])))
  = Ok (Some {| ci_target_number := 1;
                ci_sens_res := "0004";
                ci_sel_res := "08";
                ci_uid_length := 4;
                ci_uid := "DEADBEEF";
                ci_card_type := "MIFARE Classic 1K" |}).
Proof. reflexivity. Qed.

(** ** Bytes and checksum arithmetic *)

Lemma int_of_byte_range (b : byte) : 0 <= int_of_byte b < 256.
Proof.
  unfold int_of_byte. pose proof (Byte.to_N_bounded b). lia.
Qed.

Lemma byte_of_int_of_byte (b : byte) : byte_of_int (int_of_byte b) = Ok b.
Proof.
  unfold byte_of_int. pose proof (int_of_byte_range b) as Hb.
  replace ((0 <=? int_of_byte b) && (int_of_byte b <? 256)) with true
    by (symmetry; apply andb_true_iff; split; [apply Z.leb_le | apply Z.ltb_lt]; lia).
  unfold int_of_byte. rewrite N2Z.id, Byte.of_to_N. reflexivity.
Qed.

Lemma byte_of_int_in_range (z : Z) :
  0 <= z < 256 -> exists b, byte_of_int z = Ok b /\ int_of_byte b = z.
Proof.
  intros Hz. unfold byte_of_int.
  replace ((0 <=? z) && (z <? 256)) with true
    by (symmetry; apply andb_true_iff; split; [apply Z.leb_le | apply Z.ltb_lt]; lia).
  destruct (Byte.of_N (Z.to_N z)) as [b|] eqn:E.
  - exists b. split; [reflexivity|].
    apply Byte.to_of_N in E. unfold int_of_byte. rewrite E. lia.
  - apply Byte.of_N_None_iff in E. lia.
Qed.

Lemma byte_of_int_out_of_range (z : Z) :
  z < 0 \/ 256 <= z -> byte_of_int z = Raise ValueError.
Proof.
  intros Hz. unfold byte_of_int.
  destruct ((0 <=? z) && (z <? 256)) eqn:E; [|reflexivity].
  apply andb_true_iff in E. destruct E as [E1 E2].
  apply Z.leb_le in E1. apply Z.ltb_lt in E2. lia.
Qed.

Lemma byte_of_int_inv (z : Z) (b : byte) :
  byte_of_int z = Ok b -> int_of_byte b = z /\ 0 <= z < 256.
Proof.
  intros E.
  destruct (Z_lt_dec z 0) as [Hn|Hn];
    [rewrite byte_of_int_out_of_range in E by lia; discriminate|].
  destruct (Z_le_dec 256 z) as [Hg|Hg];
    [rewrite byte_of_int_out_of_range in E by lia; discriminate|].
  destruct (byte_of_int_in_range z) as (b' & E' & Hb'); [lia|].
  rewrite E in E'. injection E' as ->. split; [assumption | lia].
Qed.

Lemma int_of_byte_inj (a b : byte) : int_of_byte a = int_of_byte b -> a = b.
Proof.
  intros E. pose proof (byte_of_int_of_byte a) as Ha.
  rewrite E, byte_of_int_of_byte in Ha. congruence.
Qed.

Lemma bytes_of_singleton (z : Z) :
  bytes_of [z] = match byte_of_int z with Ok b => Ok [b] | Raise e => Raise e end.
Proof. simpl. destruct (byte_of_int z); reflexivity. Qed.

Lemma land_255 (x : Z) : Z.land x 255 = x mod 256.
Proof. change 255 with (Z.ones 8). rewrite Z.land_ones by lia. reflexivity. Qed.

Lemma neg_byte (x : Z) : Z.land (Z.lnot x + 1) 255 = (- x) mod 256.
Proof. rewrite land_255. f_equal. unfold Z.lnot. lia. Qed.

Lemma sum_from (bs : bytes) (acc : Z) :
  fold_left (fun a b => a + int_of_byte b) bs acc
  = acc + fold_left (fun a b => a + int_of_byte b) bs 0.
Proof.
  revert acc. induction bs as [|b bs IH]; intros acc; simpl.
  - lia.
  - rewrite IH. rewrite (IH (int_of_byte b)). lia.
Qed.

Lemma sum_cons (b : byte) (bs : bytes) : sum (b :: bs) = int_of_byte b + sum bs.
Proof. unfold sum. simpl. apply sum_from. Qed.

Lemma len_cons {A : Type} (a : A) (l : list A) : len (a :: l) = len l + 1.
Proof. unfold len. simpl List.length. lia. Qed.

Lemma len_app {A : Type} (l l' : list A) : len (l ++ l') = len l + len l'.
Proof. unfold len. rewrite length_app. lia. Qed.

Lemma len_nonneg {A : Type} (l : list A) : 0 <= len l.
Proof. unfold len. lia. Qed.

(** ** The encoder *)

(** What a successful [_build_frame] produced. *)
Lemma build_frame_inv (data frame : bytes) :
  _build_frame data = Ok frame ->
  exists b_length b_lcs b_dcs : byte,
    frame = [x00; x00; xff; b_length; b_lcs; xd4] ++ data ++ [b_dcs; x00] /\
    int_of_byte b_length = len data + 1 /\
    int_of_byte b_lcs = (- (len data + 1)) mod 256 /\
    int_of_byte b_dcs = (- (sum ([xd4] ++ data))) mod 256.
Proof.
  unfold _build_frame. rewrite !bytes_of_singleton, !neg_byte.
  destruct (byte_of_int (len data + 1)) as [bl|] eqn:El; [|discriminate].
  destruct (byte_of_int ((- (len data + 1)) mod 256)) as [bc|] eqn:Ec; [|discriminate].
  destruct (byte_of_int ((- sum ([xd4] ++ data)) mod 256)) as [bd|] eqn:Ed; [|discriminate].
  cbn. intros [= <-]. exists bl, bc, bd.
  apply byte_of_int_inv in El, Ec, Ed.
  repeat split; tauto.
Qed.

Lemma build_frame_total (data : bytes) :
  len data <= 254 -> exists frame, _build_frame data = Ok frame.
Proof.
  intros Hlen. unfold _build_frame. rewrite !bytes_of_singleton, !neg_byte.
  pose proof (len_nonneg data).
  destruct (byte_of_int_in_range (len data + 1)) as (bl & -> & _); [lia|].
  destruct (byte_of_int_in_range ((- (len data + 1)) mod 256)) as (bc & -> & _);
    [apply Z.mod_pos_bound; lia|].
  destruct (byte_of_int_in_range ((- sum ([xd4] ++ data)) mod 256)) as (bd & -> & _);
    [apply Z.mod_pos_bound; lia|].
  cbn. eexists. reflexivity.
Qed.

(** C2. Every frame the encoder emits carries a length byte and a length
    checksum whose sum is 0 modulo 256, and a data checksum that brings the
    sum of the direction tag 0xD4 and the data bytes to 0 modulo 256; the
    length byte counts the direction tag and the data. *)
Theorem build_frame_checksums (data frame : bytes) :
  _build_frame data = Ok frame ->
  exists length length_checksum data_checksum : byte,
    frame = PREAMBLE ++ STARTCODE1 ++ STARTCODE2 ++
            [length; length_checksum] ++ [xd4] ++ data ++
            [data_checksum] ++ POSTAMBLE /\
    int_of_byte length = len ([xd4] ++ data) /\
    (int_of_byte length + int_of_byte length_checksum) mod 256 = 0 /\
    (int_of_byte xd4 + sum data + int_of_byte data_checksum) mod 256 = 0.
Proof.
  intros E. apply build_frame_inv in E.
  destruct E as (bl & bc & bd & -> & Hl & Hc & Hd).
  exists bl, bc, bd. split; [reflexivity|].
  change ([xd4] ++ data) with (xd4 :: data) in *.
  split; [rewrite Hl, len_cons; reflexivity|].
  rewrite Hl, Hc, Hd.
  rewrite sum_cons. split.
  - rewrite Zplus_mod_idemp_r. replace (_ + - _) with 0 by lia. reflexivity.
  - rewrite Zplus_mod_idemp_r.
    replace (_ + - _) with 0 by lia. reflexivity.
Qed.

Lemma build_frame_checksums_witness :
  _build_frame [x02] = Ok [x00; x00; xff; x02; xfe; xd4; x02; x2a; x00] /\
  exists length length_checksum data_checksum : byte,
    [x00; x00; xff; x02; xfe; xd4; x02; x2a; x00]
    = PREAMBLE ++ STARTCODE1 ++ STARTCODE2 ++
      [length; length_checksum] ++ [xd4] ++ [x02] ++
      [data_checksum] ++ POSTAMBLE /\
    int_of_byte length = len ([xd4] ++ [x02]) /\
    (int_of_byte length + int_of_byte length_checksum) mod 256 = 0 /\
    (int_of_byte xd4 + sum [x02] + int_of_byte data_checksum) mod 256 = 0.
Proof.
  split; [reflexivity|].
  apply (build_frame_checksums [x02]). reflexivity.
Defined.

(** C8. A parameter sequence of more than 253 bytes makes the length field
    exceed 255: the encoder raises [ValueError] at [bytes([length])] instead
    of emitting a frame, and [send_command] propagates it before anything is
    written or printed. *)
Theorem build_frame_length_overflow
  {P : Type} {T : Transport P} (opcode : byte) (params : bytes) (s : self P) :
  253 < len params ->
  _build_frame ([opcode] ++ params) = Raise ValueError /\
  run (send_command [opcode] params) s = (Raise ValueError, s).
Proof.
  intros Hlen.
  assert (E : _build_frame ([opcode] ++ params) = Raise ValueError).
  { unfold _build_frame. rewrite bytes_of_singleton.
    rewrite byte_of_int_out_of_range; [reflexivity|].
    right. change ([opcode] ++ params) with (opcode :: params).
    rewrite len_cons. lia. }
  split; [exact E|].
  unfold send_command. cbn [bind Monad_M run lift]. rewrite E. reflexivity.
Qed.

Lemma build_frame_length_overflow_witness :
  253 < len (repeat x00 254) /\
  _build_frame ([x4a] ++ repeat x00 254) = Raise ValueError /\
  run (send_command [x4a] (repeat x00 254)) (mock true [])
  = (Raise ValueError, mock true []).
Proof.
  split; [reflexivity|].
  apply (build_frame_length_overflow x4a (repeat x00 254) (mock true [])).
  reflexivity.
Defined.

(** ** Card-type classification *)

Lemma land_0x20 (sak : Z) :
  Z.land sak 0x20 = if Z.testbit sak 5 then 0x20 else 0.
Proof.
  apply Z.bits_inj'. intros n Hn.
  rewrite Z.land_spec. change 0x20 with (2 ^ 5).
  rewrite Z.pow2_bits_eqb by lia.
  destruct (Z.eqb_spec 5 n) as [<-|Hne].
  - destruct (Z.testbit sak 5) eqn:E.
    + rewrite Z.pow2_bits_true by lia. reflexivity.
    + rewrite Z.bits_0. reflexivity.
  - rewrite andb_false_r.
    destruct (Z.testbit sak 5).
    + rewrite Z.pow2_bits_false by lia. reflexivity.
    + rewrite Z.bits_0. reflexivity.
Qed.

Lemma byte_values_complete (z : Z) : 0 <= z < 256 -> In z byte_values.
Proof.
  intros Hz. unfold byte_values. apply in_map_iff.
  exists (Z.to_nat z). split; [lia|]. apply in_seq. lia.
Qed.

(** Two-digit hexadecimal formatting tells any two byte values apart. *)
Lemma format_02X_inj (a b : Z) :
  0 <= a < 256 -> 0 <= b < 256 -> format_02X a = format_02X b -> a = b.
Proof.
  intros Ha Hb E.
  assert (H : forallb (fun x =>
                forallb (fun y =>
                  implb (String.eqb (format_02X x) (format_02X y)) (x =? y))
                  byte_values) byte_values = true) by (vm_compute; reflexivity).
  rewrite forallb_forall in H.
  specialize (H a (byte_values_complete a Ha)).
  rewrite forallb_forall in H.
  specialize (H b (byte_values_complete b Hb)).
  apply (proj2 (String.eqb_eq _ _)) in E. rewrite E in H.
  apply Z.eqb_eq. exact H.
Qed.

Lemma append_closing_inj (x y : string) :
  String.append x ")" = String.append y ")" -> x = y.
Proof.
  revert y. induction x as [|c x IH]; intros [|d y]; cbn; intros E.
  - reflexivity.
  - injection E as _ E. destruct y; discriminate E.
  - injection E as _ E. destruct x; discriminate E.
  - injection E as -> E. f_equal. apply IH. exact E.
Qed.

(** C7. Classification of a SAK byte applies its rules in order, the first
    that matches deciding: bit 0x20 set gives ISO14443-4; otherwise the exact
    values 0x08, 0x18, 0x00 and 0x10 give Classic 1K, Classic 4K, Ultralight
    and Plus; every other value gives the unknown result, which spells the
    raw SAK value in hexadecimal and so determines it. The six sample values
    classify as listed. *)
Theorem identify_card_type_rules (sak : Z) :
  0 <= sak < 256 ->
  (Z.testbit sak 5 = true ->
   _identify_card_type sak = "ISO14443-4 (EMV/Smart Card)"%string) /\
  (Z.testbit sak 5 = false ->
   (sak = 0x08 -> _identify_card_type sak = "MIFARE Classic 1K"%string) /\
   (sak = 0x18 -> _identify_card_type sak = "MIFARE Classic 4K"%string) /\
   (sak = 0x00 -> _identify_card_type sak = "MIFARE Ultralight"%string) /\
   (sak = 0x10 -> _identify_card_type sak = "MIFARE Plus"%string) /\
   (sak <> 0x08 -> sak <> 0x18 -> sak <> 0x00 -> sak <> 0x10 ->
    _identify_card_type sak
    = String.append "Unknown (SAK: 0x" (String.append (format_02X sak) ")") /\
    forall sak', 0 <= sak' < 256 ->
      _identify_card_type sak' = _identify_card_type sak -> sak' = sak)) /\
  _identify_card_type 0x08 = "MIFARE Classic 1K"%string /\
  _identify_card_type 0x18 = "MIFARE Classic 4K"%string /\
  _identify_card_type 0x00 = "MIFARE Ultralight"%string /\
  _identify_card_type 0x28 = "ISO14443-4 (EMV/Smart Card)"%string /\
  _identify_card_type 0x10 = "MIFARE Plus"%string /\
  _identify_card_type 0x45 = "Unknown (SAK: 0x45)"%string.
Proof.
  intros Hsak.
  split; [|split; [|repeat split; reflexivity]].
  - intros Hbit. unfold _identify_card_type. rewrite land_0x20, Hbit. reflexivity.
  - intros Hbit.
    assert (Hu : forall x, Z.testbit x 5 = false ->
                 x <> 0x08 -> x <> 0x18 -> x <> 0x00 -> x <> 0x10 ->
                 _identify_card_type x
                 = String.append "Unknown (SAK: 0x"
                     (String.append (format_02X x) ")")).
    { intros x Hx H1 H2 H3 H4. unfold _identify_card_type.
      rewrite land_0x20, Hx. cbn [Z.eqb negb].
      destruct (Z.eqb_spec x 0x08); [contradiction|].
      destruct (Z.eqb_spec x 0x18); [contradiction|].
      destruct (Z.eqb_spec x 0x00); [contradiction|].
      destruct (Z.eqb_spec x 0x10); [contradiction|]. reflexivity. }
    repeat split; try (intros ->; reflexivity).
    + apply Hu; assumption.
    + intros sak' Hsak' E. rewrite (Hu sak Hbit) in E by assumption.
      unfold _identify_card_type in E. rewrite land_0x20 in E.
      destruct (Z.testbit sak' 5); cbn [Z.eqb negb] in E; [discriminate|].
      destruct (Z.eqb_spec sak' 0x08); [discriminate|].
      destruct (Z.eqb_spec sak' 0x18); [discriminate|].
      destruct (Z.eqb_spec sak' 0x00); [discriminate|].
      destruct (Z.eqb_spec sak' 0x10); [discriminate|].
      apply format_02X_inj; try assumption.
      cbn in E. injection E as E. revert E.
      generalize (format_02X sak') (format_02X sak). intros x y.
      apply append_closing_inj.
Qed.

Lemma identify_card_type_rules_witness :
  0 <= 0x45 < 256 /\
  _identify_card_type 0x45 = "Unknown (SAK: 0x45)"%string /\
  _identify_card_type 0x28 = "ISO14443-4 (EMV/Smart Card)"%string.
Proof.
  split; [lia|].
  pose proof (identify_card_type_rules 0x45 ltac:(lia)) as H.
  split; apply H.
Defined.

(** ** Running method bodies *)

Ltac mrun :=
  cbn [bind ret Monad_M run lift get_debug print serial_write serial_read
       when record fst snd serial debug history].

Ltac norm_state :=
  unfold record; cbn [serial debug history];
  rewrite <- ?app_assoc; cbn [app].

Lemma performed_app {P : Type} (s s' : self P) (l : list effect) :
  history s' = history s ++ l -> performed s s' = l.
Proof.
  intros E. unfold performed. rewrite E.
  rewrite skipn_app, skipn_all, Nat.sub_diag. reflexivity.
Qed.

Lemma getitem_in_range (bs : bytes) (i : Z) :
  - len bs <= i < len bs ->
  exists b, getitem bs i = Ok (int_of_byte b) /\
            nth_error bs (Z.to_nat (if i <? 0 then i + len bs else i)) = Some b.
Proof.
  intros Hi. unfold getitem.
  set (k := if i <? 0 then i + len bs else i).
  assert (Hk : 0 <= k < len bs) by (subst k; destruct (Z.ltb_spec i 0); lia).
  replace ((k <? 0) || (len bs <=? k)) with false
    by (symmetry; apply orb_false_iff; split; [apply Z.ltb_ge | apply Z.leb_gt]; lia).
  destruct (nth_error bs (Z.to_nat k)) as [b|] eqn:E.
  - exists b. split; reflexivity.
  - apply nth_error_None in E. unfold len in Hk. lia.
Qed.

Lemma bytes_eqb_true (x y : bytes) : bytes_eqb x y = true <-> x = y.
Proof.
  unfold bytes_eqb. destruct (list_eq_dec Byte.byte_eq_dec x y); split;
    congruence.
Qed.

Lemma bytes_eqb_false (x y : bytes) : bytes_eqb x y = false <-> x <> y.
Proof.
  unfold bytes_eqb. destruct (list_eq_dec Byte.byte_eq_dec x y); split;
    congruence.
Qed.

Section Decoder.

Context {P : Type} {T : Transport P}.

(** [_read_frame] never raises, and what it does is one of the seven paths. *)
Lemma read_frame_run (s : self P) :
  exists o, fst (run _read_frame s) = Ok o /\
            read_frame_path s o (snd (run _read_frame s)).
Proof.
  destruct (run _read_frame s) as [r s'] eqn:E. cbn [fst snd].
  revert E. unfold _read_frame. mrun.
  destruct (tr_read 3 (serial s)) as [header p1] eqn:E1. mrun.
  destruct (Z.ltb_spec (len header) 3) as [H1|H1]; mrun.
  { intros [= <- <-]. exists None. split; [reflexivity|].
    norm_state. eapply rf_short_header; eassumption. }
  fold HEADER.
  destruct (bytes_eqb header HEADER) eqn:Eh; cbn [negb]; mrun.
  2:{ intros [= <- <-]. exists None. split; [reflexivity|].
      apply bytes_eqb_false in Eh.
      norm_state.
      eapply rf_bad_header; eassumption. }
  apply bytes_eqb_true in Eh. subst header.
  destruct (tr_read 2 p1) as [len_lcs p2] eqn:E2. mrun.
  destruct (Z.ltb_spec (len len_lcs) 2) as [H2|H2]; mrun.
  { intros [= <- <-]. exists None. split; [reflexivity|].
    norm_state.
    eapply rf_short_length; eassumption. }
  destruct (getitem_in_range len_lcs 0) as (b0 & G0 & _); [lia|].
  destruct (getitem_in_range len_lcs 1) as (b1 & G1 & _); [lia|].
  rewrite G0, G1.
  destruct (Z.eqb_spec (Z.land (int_of_byte b0 + int_of_byte b1) 255) 0)
    as [Hl|Hl]; cbn [negb]; mrun.
  2:{ intros [= <- <-]. exists None. split; [reflexivity|].
      norm_state.
      eapply rf_bad_lcs; eassumption. }
  destruct (tr_read (int_of_byte b0 + 1) p2) as [data_dcs p3] eqn:E3. mrun.
  pose proof (int_of_byte_range b0) as Hb0.
  destruct (Z.ltb_spec (len data_dcs) (int_of_byte b0 + 1)) as [H3|H3]; mrun.
  { intros [= <- <-]. exists None. split; [reflexivity|].
    norm_state.
    eapply rf_short_body; eassumption. }
  destruct (getitem_in_range data_dcs 0) as (t & Gt & _); [lia|].
  destruct (getitem_in_range data_dcs (-1)) as (d & Gd & _); [lia|].
  rewrite Gt, Gd.
  destruct (Z.eqb_spec
              (Z.land (int_of_byte t + sum (slice data_dcs (Some 1) (Some (-1)))
                       + int_of_byte d) 255) 0) as [Hd|Hd]; cbn [negb]; mrun.
  2:{ intros [= <- <-]. exists None. split; [reflexivity|].
      norm_state.
      eapply rf_bad_dcs; eassumption. }
  destruct (tr_read 1 p3) as [postamble p4] eqn:E4. mrun.
  intros [= <- <-]. eexists. split; [reflexivity|].
  norm_state.
  eapply rf_accept; eassumption.
Qed.

Lemma performed_after (s : self P) (p : P) (l : list effect) :
  performed s (after s p l) = l.
Proof. apply performed_app. reflexivity. Qed.

(** Conversely, a path determines the run. *)
Lemma read_frame_path_run (s s' : self P) (o : option bytes) :
  read_frame_path s o s' -> run _read_frame s = (Ok o, s').
Proof.
  assert (Hlt : forall a b, a < b -> (a <? b) = true)
    by (intros; apply Z.ltb_lt; assumption).
  assert (Hge : forall a b, b <= a -> (a <? b) = false)
    by (intros; apply Z.ltb_ge; assumption).
  assert (Hh : bytes_eqb HEADER HEADER = true) by (apply bytes_eqb_true; reflexivity).
  intros Hp. unfold _read_frame. fold HEADER.
  destruct Hp; mrun;
    repeat match goal with
           | H : tr_read _ _ = _ |- _ => rewrite H; clear H; mrun
           | H : getitem _ _ = _ |- _ => rewrite H; clear H; mrun
           | H : _ < _ |- _ => rewrite (Hlt _ _ H); clear H; mrun
           | H : _ <= _ |- _ => rewrite (Hge _ _ H); clear H; mrun
           | H : _ <> HEADER |- _ =>
               rewrite (proj2 (bytes_eqb_false _ _) H); clear H; cbn [negb]; mrun
           | H : Z.land _ 255 = 0 |- _ =>
               rewrite (proj2 (Z.eqb_eq _ _) H); clear H; cbn [negb]; mrun
           | H : Z.land _ 255 <> 0 |- _ =>
               rewrite (proj2 (Z.eqb_neq _ _) H); clear H; cbn [negb]; mrun
           | |- context [bytes_eqb HEADER HEADER] => rewrite Hh; cbn [negb]; mrun
           | |- context [len HEADER <? 3] =>
               change (len HEADER <? 3) with false; mrun
           end;
    norm_state; reflexivity.
Qed.

(** C3. Whenever one of the first three reads of the decoder (header, length
    pair, body of length + 1 bytes) comes back with fewer bytes than it asked
    for, [_read_frame] returns the failure value [None], not a payload; it
    does so without a diagnostic line and without reading any further. *)
Theorem read_frame_truncated (s : self P) (i : nat) (size : Z) (got : bytes) :
  (i < 3)%nat ->
  nth_error (reads (performed s (snd (run _read_frame s)))) i = Some (size, got) ->
  len got < size ->
  fst (run _read_frame s) = Ok None /\
  printed (performed s (snd (run _read_frame s))) = [] /\
  List.length (reads (performed s (snd (run _read_frame s)))) = S i.
Proof.
  intros Hi Hnth Hshort.
  destruct (read_frame_run s) as (o & -> & Hp).
  revert Hnth. generalize dependent (snd (run _read_frame s)). intros s' Hp.
  destruct Hp; rewrite !performed_after; cbn [reads printed List.length];
    destruct i as [|[|[|i]]]; cbn [nth_error]; try lia;
    intros [= <- <-]; try lia; repeat split; try reflexivity;
    try (unfold HEADER, PREAMBLE, STARTCODE1, STARTCODE2, len in Hshort;
         cbn in Hshort; lia).
Qed.

Lemma double_byte_zero (b : byte) :
  (int_of_byte b + int_of_byte b) mod 256 = 0 <-> b = x00 \/ b = x80.
Proof.
  split.
  - intros H. pose proof (int_of_byte_range b) as Hb.
    assert (Hv : int_of_byte b = 0 \/ int_of_byte b = 128).
    { apply Z.mod_divide in H; [|lia]. destruct H as [k Hk]. lia. }
    destruct Hv as [Hv|Hv]; [left|right]; apply int_of_byte_inj; rewrite Hv;
      reflexivity.
  - intros [-> | ->]; reflexivity.
Qed.

(** C10. On a frame that declares length 0 with length checksum 0x00 the
    decoder asks for a single body byte. That byte is read both as the
    direction tag and as the data checksum, so the frame is accepted exactly
    when twice the byte is 0 modulo 256, that is for 0x00 and 0x80, and then
    the payload returned is empty; any other body gives [None]. *)
Theorem read_frame_zero_length (s : self P) (p1 p2 p3 : P) (body : bytes) :
  tr_read 3 (serial s) = (HEADER, p1) ->
  tr_read 2 p1 = ([x00; x00], p2) ->
  tr_read 1 p2 = (body, p3) ->
  firstn 3 (reads (performed s (snd (run _read_frame s))))
  = [(3, HEADER); (2, [x00; x00]); (1, body)] /\
  (fst (run _read_frame s) = Ok (Some []) \/ fst (run _read_frame s) = Ok None) /\
  (fst (run _read_frame s) = Ok (Some []) <->
   exists b, body = [b] /\ (int_of_byte b + int_of_byte b) mod 256 = 0) /\
  (fst (run _read_frame s) = Ok (Some []) <-> body = [x00] \/ body = [x80]).
Proof.
  intros E1 E2 E3.
  assert (G0 : getitem [x00; x00] 0 = Ok 0) by reflexivity.
  assert (G1 : getitem [x00; x00] 1 = Ok 0) by reflexivity.
  assert (L2 : 2 <= len [x00; x00]) by (unfold len; cbn; lia).
  assert (Lc : Z.land (0 + 0) 255 = 0) by reflexivity.
  pose proof (tr_read_le 1 p2 ltac:(lia)) as Hle. rewrite E3 in Hle.
  cbn [fst] in Hle.
  assert (Hiff : forall b, [b] = [x00] \/ [b] = [x80] <-> b = x00 \/ b = x80).
  { intros b. split; intros [H|H]; [left|right|left|right]; congruence. }
  destruct body as [|b [|b' body]].
  - (* nothing arrived *)
    rewrite (read_frame_path_run s _ _
               (rf_short_body s p1 _ p2 0 0 [] p3 E1 E2 L2 G0 G1 Lc E3
                  ltac:(unfold len; cbn; lia))).
    cbn [fst snd]. rewrite performed_after.
    split; [reflexivity|]. split; [right; reflexivity|].
    split; split; try discriminate.
    + intros (b & Hb & _). discriminate.
    + intros [H|H]; discriminate.
  - (* one byte *)
    assert (Gt : getitem [b] 0 = Ok (int_of_byte b)) by reflexivity.
    assert (Gd : getitem [b] (-1) = Ok (int_of_byte b)) by reflexivity.
    assert (Sl : slice [b] (Some 1) (Some (-1)) = []) by reflexivity.
    assert (L1 : 0 + 1 <= len [b]) by (unfold len; cbn; lia).
    destruct (Z.eq_dec (Z.land (int_of_byte b + sum [] + int_of_byte b) 255) 0)
      as [Hd|Hd].
    + destruct (tr_read 1 p3) as [postamble p4] eqn:E4.
      pose proof (rf_accept s p1 _ p2 0 0 [b] p3 _ _ postamble p4
                    E1 E2 L2 G0 G1 Lc E3 L1 Gt Gd) as Hp.
      rewrite Sl in Hp. specialize (Hp Hd E4).
      rewrite (read_frame_path_run s _ _ Hp).
      cbn [fst snd]. rewrite performed_after.
      rewrite land_255 in Hd. change (sum []) with 0 in Hd.
      rewrite Z.add_0_r in Hd.
      split; [reflexivity|]. split; [left; reflexivity|].
      split; split; try reflexivity.
      * intros _. exists b. split; [reflexivity | exact Hd].
      * intros _. apply Hiff, double_byte_zero. exact Hd.
    + pose proof (rf_bad_dcs s p1 _ p2 0 0 [b] p3 _ _
                    E1 E2 L2 G0 G1 Lc E3 L1 Gt Gd) as Hp.
      rewrite Sl in Hp. specialize (Hp Hd).
      rewrite (read_frame_path_run s _ _ Hp).
      cbn [fst snd]. rewrite performed_after.
      rewrite land_255 in Hd. change (sum []) with 0 in Hd.
      rewrite Z.add_0_r in Hd.
      split; [reflexivity|]. split; [right; reflexivity|].
      split; split; try discriminate.
      * intros (c & [= <-] & Hc). contradiction.
      * intros H. apply Hiff, double_byte_zero in H. contradiction.
  - (* a read of one byte cannot return two *)
    unfold len in Hle. cbn in Hle. lia.
Qed.

End Decoder.

Lemma read_frame_zero_length_witness :
  tr_read 3 (serial (mock false stream_zero_length))
  = (HEADER, {| rx := [x00; x00; x80; x00]; tx := [] |}) /\
  tr_read 2 {| rx := [x00; x00; x80; x00]; tx := [] |}
  = ([x00; x00], {| rx := [x80; x00]; tx := [] |}) /\
  tr_read 1 {| rx := [x80; x00]; tx := [] |}
  = ([x80], {| rx := [x00]; tx := [] |}) /\
  fst (run _read_frame (mock false stream_zero_length)) = Ok (Some []).
Proof.
  repeat (split; [reflexivity|]).
  apply (read_frame_zero_length (mock false stream_zero_length)
           {| rx := [x00; x00; x80; x00]; tx := [] |}
           {| rx := [x80; x00]; tx := [] |}
           {| rx := [x00]; tx := [] |} [x80]); try reflexivity.
  right. reflexivity.
Defined.

Lemma read_frame_truncated_witness :
  (2 < 3)%nat /\
  nth_error
    (reads (performed (mock false stream_truncated_body)
              (snd (run _read_frame (mock false stream_truncated_body))))) 2
  = Some (4, [xd5; x01]) /\
  len [xd5; x01] < 4 /\
  fst (run _read_frame (mock false stream_truncated_body)) = Ok None /\
  printed (performed (mock false stream_truncated_body)
             (snd (run _read_frame (mock false stream_truncated_body)))) = [] /\
  List.length
    (reads (performed (mock false stream_truncated_body)
              (snd (run _read_frame (mock false stream_truncated_body)))))
  = 3%nat.
Proof.
  split; [lia|]. split; [reflexivity|]. split; [reflexivity|].
  apply (read_frame_truncated (mock false stream_truncated_body) 2 4 [xd5; x01]);
    [lia | reflexivity | reflexivity].
Defined.

(** ** Round trip through the codec *)

Lemma mock_read_app (front back out : bytes) (n : Z) :
  n = len front ->
  tr_read n {| rx := front ++ back; tx := out |}
  = (front, {| rx := back; tx := out |}).
Proof.
  intros ->. cbn [tr_read Transport_MockSerial]. unfold mock_read, len.
  cbn [rx tx]. rewrite Nat2Z.id.
  rewrite firstn_app, firstn_all, Nat.sub_diag, app_nil_r.
  rewrite skipn_app, skipn_all, Nat.sub_diag. reflexivity.
Qed.

Lemma getitem_first (a : byte) (l : bytes) :
  getitem (a :: l) 0 = Ok (int_of_byte a).
Proof.
  destruct (getitem_in_range (a :: l) 0) as (b & -> & Hb).
  - rewrite len_cons. pose proof (len_nonneg l). lia.
  - cbn in Hb. congruence.
Qed.

Lemma getitem_last (a z : byte) (l : bytes) :
  getitem (a :: l ++ [z]) (-1) = Ok (int_of_byte z).
Proof.
  destruct (getitem_in_range (a :: l ++ [z]) (-1)) as (b & -> & Hb).
  - rewrite len_cons. pose proof (len_nonneg (l ++ [z])). lia.
  - rewrite len_cons, len_app in Hb. change (-1 <? 0) with true in Hb.
    cbv iota in Hb. unfold len in Hb. cbn [List.length] in Hb.
    replace (Z.to_nat _) with (S (List.length l)) in Hb by lia.
    cbn [nth_error] in Hb.
    rewrite nth_error_app2, Nat.sub_diag in Hb by lia.
    cbn in Hb. congruence.
Qed.

Lemma slice_inner (a z : byte) (l : bytes) :
  slice (a :: l ++ [z]) (Some 1) (Some (-1)) = l.
Proof.
  unfold slice, clamp. rewrite len_cons, len_app.
  change (len [z]) with 1. change (1 <? 0) with false.
  change (-1 <? 0) with true. cbv iota.
  pose proof (len_nonneg l) as Hl.
  rewrite Z.min_l, Z.max_l by lia.
  replace (Z.to_nat 1) with 1%nat by reflexivity. cbn [skipn].
  replace (Z.to_nat _) with (List.length l) by (unfold len; lia).
  rewrite firstn_app, firstn_all, Nat.sub_diag. apply app_nil_r.
Qed.

(** C1 (as the code has it). For an opcode and at most 253 parameter bytes
    the encoder produces a frame, and the decoder, reading that frame from
    the handle, succeeds and returns opcode followed by the parameters: the
    direction tag 0xD4 is checked through the data checksum and stripped,
    not returned. The decoder consumes exactly the frame. *)
Theorem frame_roundtrip
  (opcode : byte) (params rest : bytes) (s : self MockSerial) :
  len params <= 253 ->
  exists frame,
    _build_frame ([opcode] ++ params) = Ok frame /\
    (rx (serial s) = frame ++ rest ->
     fst (run _read_frame s) = Ok (Some ([opcode] ++ params)) /\
     rx (serial (snd (run _read_frame s))) = rest).
Proof.
  intros Hlen. set (data := [opcode] ++ params).
  assert (Hdata : len data = len params + 1) by apply len_cons.
  destruct (build_frame_total data) as [frame E]; [lia|].
  exists frame. split; [exact E|]. intros Hrx.
  apply build_frame_inv in E. destruct E as (bl & bc & bd & -> & Hl & Hc & Hd).
  destruct s as [[input out] dbg hist]. cbn [rx serial] in Hrx. subst input.
  set (s := {| serial := _ |}).
  assert (E1 : tr_read 3 (serial s)
               = (HEADER, {| rx := [bl; bc] ++ (xd4 :: data ++ [bd]) ++ [x00] ++ rest;
                             tx := out |})).
  { subst s. cbn [serial]. rewrite <- (mock_read_app HEADER _ out 3 eq_refl).
    do 2 f_equal. cbn. rewrite <- !app_assoc. reflexivity. }
  pose proof (mock_read_app [bl; bc] ((xd4 :: data ++ [bd]) ++ [x00] ++ rest)
                out 2 eq_refl) as E2.
  assert (E3 : tr_read (int_of_byte bl + 1)
                 {| rx := (xd4 :: data ++ [bd]) ++ [x00] ++ rest; tx := out |}
               = (xd4 :: data ++ [bd], {| rx := [x00] ++ rest; tx := out |})).
  { apply mock_read_app. rewrite Hl, len_cons, len_app. reflexivity. }
  pose proof (mock_read_app [x00] rest out 1 eq_refl) as E4.
  assert (Hlcs : Z.land (int_of_byte bl + int_of_byte bc) 255 = 0).
  { rewrite land_255, Hl, Hc, Zplus_mod_idemp_r.
    replace (_ + - _) with 0 by lia. reflexivity. }
  assert (Hdcs : Z.land (int_of_byte xd4 + sum data + int_of_byte bd) 255 = 0).
  { rewrite land_255, Hd. change ([xd4] ++ data) with (xd4 :: data).
    rewrite sum_cons, Zplus_mod_idemp_r.
    replace (_ + - _) with 0 by lia. reflexivity. }
  pose proof (rf_accept s _ [bl; bc] _ _ _ (xd4 :: data ++ [bd]) _ _ _ [x00]
                {| rx := rest; tx := out |}
                E1 E2 ltac:(unfold len; cbn; lia)
                (getitem_first bl [bc]) eq_refl Hlcs E3
                ltac:(rewrite Hl, len_cons, len_app; change (len [bd]) with 1; lia)
                (getitem_first xd4 _) (getitem_last xd4 bd data)) as Hp.
  rewrite slice_inner in Hp. specialize (Hp Hdcs E4).
  rewrite (read_frame_path_run s _ _ Hp). cbn. split; reflexivity.
Qed.

Lemma frame_roundtrip_witness :
  len [x01; x00] <= 253 /\
  _build_frame ([x4a] ++ [x01; x00])
  = Ok [x00; x00; xff; x04; xfc; xd4; x4a; x01; x00; xe1; x00] /\
  fst (run _read_frame
         (mock true ([x00; x00; xff; x04; xfc; xd4; x4a; x01; x00; xe1; x00]
                     ++ [x55])))
  = Ok (Some ([x4a] ++ [x01; x00])) /\
  rx (serial (snd (run _read_frame
         (mock true ([x00; x00; xff; x04; xfc; xd4; x4a; x01; x00; xe1; x00]
                     ++ [x55])))))
  = [x55].
Proof.
  split; [unfold len; cbn; lia|]. split; [reflexivity|].
  destruct (frame_roundtrip x4a [x01; x00] [x55]
              (mock true ([x00; x00; xff; x04; xfc; xd4; x4a; x01; x00; xe1; x00]
                          ++ [x55])))
    as (frame & E & H); [unfold len; cbn; lia|].
  apply H.
  assert (Ef : Ok frame = Ok [x00; x00; xff; x04; xfc; xd4; x4a; x01; x00; xe1; x00])
    by (rewrite <- E; reflexivity).
  injection Ef as ->. reflexivity.
Defined.

(** C1 as stated fails: decoding the frame built for opcode 0x02 without
    parameters returns the single byte 02, not D4 02. *)
Lemma frame_roundtrip_keeps_tag_counterexample :
  _build_frame ([x02] ++ [])
  = Ok [x00; x00; xff; x02; xfe; xd4; x02; x2a; x00] /\
  fst (run _read_frame
         (mock false [x00; x00; xff; x02; xfe; xd4; x02; x2a; x00]))
  = Ok (Some [x02]) /\
  fst (run _read_frame
         (mock false [x00; x00; xff; x02; xfe; xd4; x02; x2a; x00]))
  <> Ok (Some ([xd4] ++ [x02] ++ [])).
Proof.
  split; [reflexivity|]. split; [reflexivity|]. discriminate.
Qed.

(** ** The command channel *)

Section Channel.

Context {P : Type} {T : Transport P}.

(** C4. Once the request frame is written, [send_command] issues one read of
    6 bytes and compares what came back with the ACK literal. If it differs
    in any way (short, NACK, anything else) the call prints the no-ACK line
    and returns [None]; its effects are the one write and the one read, so
    no response frame is read and nothing is sent again. *)
Theorem send_command_no_ack
  (s : self P) (command params frame ack : bytes) (p : P) :
  _build_frame (command ++ params) = Ok frame ->
  tr_read 6 (tr_write frame (serial s)) = (ack, p) ->
  ack <> ACK ->
  run (send_command command params) s
  = (Ok None,
     after (say [String.append "📤 TX: " (hex_upper frame)] s) p
       [Write frame; Read 6 ack;
        Print (String.append "⚠️ Expected ACK, got: " (hex_upper ack))]) /\
  writes (performed s (snd (run (send_command command params) s))) = [frame] /\
  reads (performed s (snd (run (send_command command params) s))) = [(6, ack)].
Proof.
  intros Eb Er Hack.
  assert (E : run (send_command command params) s
              = (Ok None,
                 after (say [String.append "📤 TX: " (hex_upper frame)] s) p
                   [Write frame; Read 6 ack;
                    Print (String.append "⚠️ Expected ACK, got: "
                             (hex_upper ack))])).
  { unfold send_command. mrun. rewrite Eb. mrun.
    unfold say, after. destruct (debug s) eqn:Ed; mrun; rewrite Er; mrun;
      rewrite (proj2 (bytes_eqb_false _ _) Hack); cbn [negb]; mrun;
      norm_state; rewrite ?Ed; reflexivity. }
  rewrite E. cbn [snd]. split; [reflexivity|].
  unfold say, after, performed. cbn [history].
  destruct (debug s); cbn [history map]; rewrite <- ?app_assoc;
    rewrite skipn_app, skipn_all, Nat.sub_diag; split; reflexivity.
Qed.

End Channel.

Lemma send_command_no_ack_witness :
  _build_frame (CMD_GET_FIRMWARE_VERSION ++ [])
  = Ok [x00; x00; xff; x02; xfe; xd4; x02; x2a; x00] /\
  tr_read 6 (tr_write [x00; x00; xff; x02; xfe; xd4; x02; x2a; x00]
               (serial (mock false NACK)))
  = (NACK, {| rx := []; tx := [x00; x00; xff; x02; xfe; xd4; x02; x2a; x00] |}) /\
  NACK <> ACK /\
  fst (run (send_command CMD_GET_FIRMWARE_VERSION []) (mock false NACK))
  = Ok None /\
  reads (performed (mock false NACK)
           (snd (run (send_command CMD_GET_FIRMWARE_VERSION [])
                   (mock false NACK))))
  = [(6, NACK)].
Proof.
  split; [reflexivity|]. split; [reflexivity|]. split; [discriminate|].
  destruct (send_command_no_ack (mock false NACK) CMD_GET_FIRMWARE_VERSION []
              [x00; x00; xff; x02; xfe; xd4; x02; x2a; x00] NACK
              {| rx := []; tx := [x00; x00; xff; x02; xfe; xd4; x02; x2a; x00] |}
              ltac:(reflexivity) ltac:(reflexivity) ltac:(discriminate))
    as (E & _ & Hr).
  split; [rewrite E; reflexivity | exact Hr].
Defined.

(** ** The command set *)

Lemma writes_app (l l' : list effect) : writes (l ++ l') = writes l ++ writes l'.
Proof.
  induction l as [|e l IH]; [reflexivity|].
  destruct e; cbn [app writes]; rewrite IH; reflexivity.
Qed.

Section Commands.

Context {P : Type} {T : Transport P}.

Lemma say_writes (l : list string) (s : self P) :
  writes (history (say l s)) = writes (history s).
Proof.
  unfold say. destruct (debug s); [|reflexivity].
  cbn [history]. rewrite writes_app.
  induction l as [|x l IH]; cbn [map writes]; [apply app_nil_r | exact IH].
Qed.

Lemma read_frame_writes (s : self P) :
  writes (history (snd (run _read_frame s))) = writes (history s).
Proof.
  destruct (read_frame_run s) as (o & _ & Hp).
  destruct Hp; unfold after; cbn [history]; rewrite writes_app;
    cbn [writes]; apply app_nil_r.
Qed.

(** [send_command] once the frame is built and the six bytes are in. *)
Lemma send_command_run
  (s : self P) (command params frame ack : bytes) (p : P) :
  _build_frame (command ++ params) = Ok frame ->
  tr_read 6 (tr_write frame (serial s)) = (ack, p) ->
  run (send_command command params) s
  = let s1 := after (say [String.append "📤 TX: " (hex_upper frame)] s) p
                [Write frame; Read 6 ack] in
    if bytes_eqb ack ACK
    then match run _read_frame (say ["✓ ACK received"%string] s1) with
         | (Ok response, s3) =>
             (Ok response,
              match response with
              | Some (b :: r) =>
                  say [String.append "📥 RX: " (hex_upper (b :: r))] s3
              | _ => s3
              end)
         | (Raise e, s3) => (Raise e, s3)
         end
    else (Ok None,
          after s1 p
            [Print (String.append "⚠️ Expected ACK, got: " (hex_upper ack))]).
Proof.
  intros Eb Er. unfold send_command. mrun. rewrite Eb. mrun.
  destruct s as [p0 dbg h]. cbn [serial] in Er.
  destruct dbg; mrun; rewrite Er; mrun;
    unfold say, after; cbn [debug serial history map];
    (destruct (bytes_eqb ack ACK); cbn [negb]; mrun;
     [| norm_state; reflexivity]);
    norm_state;
    (destruct (run _read_frame _) as [[[[|b r]|]|e] s3]; mrun;
     try reflexivity; cbn [truthy andb]; destruct s3 as [p3 [|] h3]; mrun;
     norm_state; reflexivity).
Qed.

(** A call of [send_command] that returns has written its frame once. *)
Lemma send_command_writes_once
  (s s1 : self P) (command params : bytes) (r : option bytes) :
  run (send_command command params) s = (Ok r, s1) ->
  exists frame,
    _build_frame (command ++ params) = Ok frame /\
    writes (history s1) = writes (history s) ++ [frame].
Proof.
  intros E.
  destruct (_build_frame (command ++ params)) as [frame|] eqn:Eb.
  2:{ revert E. unfold send_command. mrun. rewrite Eb. discriminate. }
  exists frame. split; [reflexivity|].
  destruct (tr_read 6 (tr_write frame (serial s))) as [ack p] eqn:Er.
  rewrite (send_command_run s command params frame ack p Eb Er) in E.
  cbv zeta in E.
  set (s0 := after _ p _) in E.
  assert (H0 : writes (history s0) = writes (history s) ++ [frame]).
  { subst s0. unfold after. cbn [history].
    rewrite writes_app, say_writes. reflexivity. }
  destruct (bytes_eqb ack ACK).
  - pose proof (read_frame_writes (say ["✓ ACK received"%string] s0)) as H3.
    rewrite say_writes in H3.
    destruct (run _read_frame _) as [[o|e] s3]; [|discriminate].
    cbn [snd] in H3. injection E as <- <-.
    destruct o as [[|b resp]|]; rewrite ?say_writes, H3; exact H0.
  - injection E as <- <-. unfold after. cbn [history].
    rewrite writes_app, H0. cbn [writes]. apply app_nil_r.
Qed.

Lemma int_of_byte_zero (b : byte) : int_of_byte b = 0 <-> b = x00.
Proof.
  split; [|intros ->; reflexivity].
  intros H. apply int_of_byte_inj. rewrite H. reflexivity.
Qed.

Lemma len_ge_2 (a b : byte) (l : bytes) : (len (a :: b :: l) <? 2) = false.
Proof.
  apply Z.ltb_ge. rewrite !len_cons. pose proof (len_nonneg l). lia.
Qed.

(** [read_passive_target] up to the return of [send_command]. *)
Lemma detect_prefix_run
  (s s1 : self P) (card_type max_targets : Z) (params : bytes)
  (response : option bytes) :
  bytes_of [max_targets; card_type] = Ok params ->
  run (send_command CMD_IN_LIST_PASSIVE_TARGET params)
      (say [scanning_line max_targets] s)
  = (Ok response, s1) ->
  forall k : option bytes -> M P (option card_info),
    run (dbg <- get_debug ;;
         when dbg (print (scanning_line max_targets)) ;;
         params <- lift (bytes_of [max_targets; card_type]) ;;
         response <- send_command CMD_IN_LIST_PASSIVE_TARGET params ;;
         k response) s
    = run (k response) s1.
Proof.
  intros Hb Hs k. mrun. rewrite Hb. revert Hs. unfold say.
  destruct s as [p0 [|] h]; mrun; norm_state; cbn [map];
    intros ->; reflexivity.
Qed.


Lemma getitem_out_of_range (bs : bytes) (i : Z) :
  len bs <= i -> getitem bs i = Raise IndexError.
Proof.
  intros Hi. unfold getitem. pose proof (len_nonneg bs).
  replace (i <? 0) with false by (symmetry; apply Z.ltb_ge; lia).
  replace ((i <? 0) || (len bs <=? i)) with true; [reflexivity|].
  symmetry. apply orb_true_iff. right. apply Z.leb_le. exact Hi.
Qed.

(** Every response of 2 to 5 bytes whose first byte is nonzero makes
    [read_passive_target] raise [IndexError]: the guard lets it through and
    byte 4 or byte 5 is missing. *)
Lemma read_passive_target_short_response
  (s s1 : self P) (card_type max_targets : Z) (params r : bytes) (count : byte) :
  bytes_of [max_targets; card_type] = Ok params ->
  run (send_command CMD_IN_LIST_PASSIVE_TARGET params)
      (say [scanning_line max_targets] s)
  = (Ok (Some (count :: r)), s1) ->
  count <> x00 ->
  2 <= len (count :: r) < 6 ->
  run (read_passive_target card_type max_targets) s = (Raise IndexError, s1).
Proof.
  intros Hb Hs Hcount Hlen.
  unfold read_passive_target.
  rewrite (detect_prefix_run s s1 card_type max_targets params _ Hb Hs).
  cbn [truthy negb orb].
  replace (len (count :: r) <? 2) with false by (symmetry; apply Z.ltb_ge; lia).
  cbv iota.
  change (run (?m >>= ?k) s1) with
    (let (r, s') := run m s1 in
     match r with Ok a => run (k a) s' | Raise e => (Raise e, s') end).
  rewrite getitem_first. mrun.
  replace (int_of_byte count =? 0) with false
    by (symmetry; apply Z.eqb_neq; rewrite int_of_byte_zero; exact Hcount).
  cbv iota. mrun.
  destruct (getitem_in_range (count :: r) 1) as (b1 & -> & _); [lia|].
  destruct (Z_lt_dec (len (count :: r)) 5) as [H5|H5].
  - rewrite (getitem_out_of_range _ 4) by lia. reflexivity.
  - destruct (getitem_in_range (count :: r) 4) as (b4 & -> & _); [lia|].
    rewrite (getitem_out_of_range _ 5) by lia. reflexivity.
Qed.

(** C6 (as the code has it). When the response to the data-exchange command
    starts with a nonzero status byte, [transceive_apdu] returns [None]: no
    payload, and no value that carries the status. Once [send_command] has
    returned, all it does is print one closing line in debug mode: "Error
    status" with the status when more bytes follow it, "No response" when the
    response is the status byte alone. The call has written its command frame
    once: there is no retry. *)
Theorem transceive_apdu_error_status
  (s s1 : self P) (target : Z) (apdu b_target : bytes)
  (status : byte) (rest : bytes) :
  bytes_of [target] = Ok b_target ->
  run (send_command CMD_IN_DATA_EXCHANGE (b_target ++ apdu))
      (say (transceiving_lines apdu) s)
  = (Ok (Some (status :: rest)), s1) ->
  status <> x00 ->
  run (transceive_apdu target apdu) s
  = (Ok None,
     say [match rest with
          | [] => "❌ No response"%string
          | _ => String.append "⚠️ Error status: 0x"
                   (format_02X (int_of_byte status))
          end] s1) /\
  exists frame,
    _build_frame (CMD_IN_DATA_EXCHANGE ++ b_target ++ apdu) = Ok frame /\
    writes (history (snd (run (transceive_apdu target apdu) s)))
    = writes (history s) ++ [frame].
Proof.
  intros Hb Hs Hstatus.
  assert (Hrun : forall k : option bytes -> M P (option bytes),
            run (dbg <- get_debug ;;
                 when dbg
                   (print (String.append nl "💬 Transceiving APDU:") ;;
                    print (String.append "   Command: " (hex_upper apdu))) ;;
                 b_target <- lift (bytes_of [target]) ;;
                 response <- send_command CMD_IN_DATA_EXCHANGE (b_target ++ apdu) ;;
                 k response) s
            = run (k (Some (status :: rest))) s1).
  { intros k. mrun. rewrite Hb. revert Hs. unfold say, transceiving_lines.
    destruct s as [p0 [|] h]; mrun; norm_state; cbn [map];
      intros ->; reflexivity. }
  assert (Hsay : forall (line : string) (s' : self P),
            run (dbg <- get_debug ;; when dbg (print line) ;;
                 ret (@None bytes)) s'
            = (Ok None, say [line] s')).
  { intros line [p' [|] h']; reflexivity. }
  assert (E : run (transceive_apdu target apdu) s
              = (Ok None,
                 say [match rest with
                      | [] => "❌ No response"%string
                      | _ => String.append "⚠️ Error status: 0x"
                               (format_02X (int_of_byte status))
                      end] s1)).
  { unfold transceive_apdu. rewrite Hrun. cbn [truthy negb orb].
    destruct rest as [|b rest].
    - change (len [status] <? 2) with true. cbv iota. apply Hsay.
    - rewrite len_ge_2. cbv iota.
      change (run (?m >>= ?k) s1) with
        (let (r, s') := run m s1 in
         match r with Ok a => run (k a) s' | Raise e => (Raise e, s') end).
      rewrite getitem_first. mrun.
      replace (int_of_byte status =? 0) with false
        by (symmetry; apply Z.eqb_neq; rewrite int_of_byte_zero; exact Hstatus).
      cbn [negb]. apply Hsay. }
  split; [exact E|].
  destruct (send_command_writes_once _ _ _ _ _ Hs) as (frame & Ef & Hw).
  exists frame. split; [exact Ef|].
  rewrite E. cbn [snd]. rewrite say_writes, Hw, say_writes. reflexivity.
Qed.

End Commands.



Lemma transceive_apdu_error_status_witness :
  bytes_of [1] = Ok [x01] /\
  fst (run (send_command CMD_IN_DATA_EXCHANGE ([x01] ++ [x00; xa4]))
         (say (transceiving_lines [x00; xa4]) (mock true stream_status_1)))
  = Ok (Some [x01; x00]) /\
  x01 <> x00 /\
  fst (run (transceive_apdu 1 [x00; xa4]) (mock true stream_status_1)) = Ok None.
Proof.
  split; [reflexivity|]. split; [reflexivity|]. split; [discriminate|].
  pose proof (transceive_apdu_error_status (mock true stream_status_1)
                (snd (run (send_command CMD_IN_DATA_EXCHANGE ([x01] ++ [x00; xa4]))
                        (say (transceiving_lines [x00; xa4])
                           (mock true stream_status_1))))
                1 [x00; xa4] [x01] x01 [x00]
                ltac:(reflexivity) ltac:(reflexivity) ltac:(discriminate))
    as [H _].
  rewrite H. reflexivity.
Defined.

(** C6 as stated fails: exchanges answered with status 1 and with status 2
    return the same value, [None], which is also what a refused command
    returns; the returned value carries no status. *)
Lemma transceive_apdu_status_counterexample :
  fst (run (transceive_apdu 1 [x00; xa4]) (mock false stream_status_1)) = Ok None /\
  fst (run (transceive_apdu 1 [x00; xa4]) (mock false stream_status_2)) = Ok None /\
  fst (run (transceive_apdu 1 [x00; xa4]) (mock false NACK)) = Ok None /\
  fst (run (transceive_apdu 1 [x00; xa4]) (mock false stream_status_1))
  = fst (run (transceive_apdu 1 [x00; xa4]) (mock false stream_status_2)).
Proof. repeat split; reflexivity. Qed.

(** C9 fails on the code: a response that reports one target and stops after
    the target number passes the length guard (2 bytes suffice for it) and
    the read of byte 4 raises [IndexError]. *)
Theorem read_passive_target_short_response_raises :
  fst (run (send_command CMD_IN_LIST_PASSIVE_TARGET [x01; x00])
         (mock false stream_short_target))
  = Ok (Some [x01; x01]) /\
  fst (run (read_passive_target 0 1) (mock false stream_short_target))
  = Raise IndexError.
Proof. split; reflexivity. Qed.

(** * Further properties *)

(** ** The encoder's capacity *)

(** X1. The encoder succeeds exactly for data of at most 254 bytes and raises
    [ValueError] exactly beyond; a frame it returns is 8 bytes longer than
    the data. *)
Theorem build_frame_capacity (data : bytes) :
  (len data <= 254 <-> exists frame, _build_frame data = Ok frame) /\
  (254 < len data <-> _build_frame data = Raise ValueError) /\
  (forall frame, _build_frame data = Ok frame -> len frame = len data + 8).
Proof.
  assert (Hbig : 254 < len data -> _build_frame data = Raise ValueError).
  { intros H. unfold _build_frame. rewrite bytes_of_singleton.
    rewrite byte_of_int_out_of_range by lia. reflexivity. }
  split; [|split].
  - split; [apply build_frame_total|].
    intros [frame E]. destruct (Z_le_dec (len data) 254) as [H|H]; [exact H|].
    rewrite Hbig in E by lia. discriminate.
  - split; [exact Hbig|].
    intros E. destruct (Z_lt_dec 254 (len data)) as [H|H]; [exact H|].
    destruct (build_frame_total data) as [frame E']; [lia|]. congruence.
  - intros frame E. apply build_frame_inv in E.
    destruct E as (bl & bc & bd & -> & _).
    rewrite !len_app. unfold len at 1 3. cbn [List.length]. lia.
Qed.

(** ** What the decoder accepts *)

Lemma len_two (l : bytes) : len l = 2 -> exists a b, l = [a; b].
Proof.
  destruct l as [|a [|b [|c l]]]; unfold len; cbn [List.length]; try lia.
  intros _. exists a, b. reflexivity.
Qed.

Lemma sum_app (l l' : bytes) : sum (l ++ l') = sum l + sum l'.
Proof.
  induction l as [|b l IH]; [reflexivity|].
  cbn [app]. rewrite !sum_cons, IH. lia.
Qed.

(** Tag, inner bytes and checksum of a body of at least two bytes. *)
Lemma body_split (body : bytes) :
  2 <= len body ->
  exists (tfi dcs : byte) (data : bytes), body = [tfi] ++ data ++ [dcs].
Proof.
  intros H. destruct body as [|t rest]; [unfold len in H; cbn in H; lia|].
  destruct (exists_last (l := rest)) as (data & d & ->).
  { intros ->. unfold len in H. cbn in H. lia. }
  exists t, d, data. reflexivity.
Qed.

Section DecoderSoundness.

Context {P : Type} {T : Transport P}.

(** X2. A payload comes out of the decoder only after full verification: the
    header read returned 00 00 FF, the length pair sums to 0 modulo 256, the
    body read returned exactly length + 1 bytes, and tag, payload and data
    checksum sum to 0 modulo 256. The body is tag, payload, checksum in that
    order, or, for declared length 0, one byte that serves as both tag and
    checksum. *)
Theorem read_frame_accepts_only_verified (s : self P) (data : bytes) :
  fst (run _read_frame s) = Ok (Some data) ->
  exists (length lcs tfi dcs : byte) (body postamble : bytes),
    reads (performed s (snd (run _read_frame s)))
    = [(3, HEADER); (2, [length; lcs]); (int_of_byte length + 1, body);
       (1, postamble)] /\
    (int_of_byte length + int_of_byte lcs) mod 256 = 0 /\
    len body = int_of_byte length + 1 /\
    (int_of_byte tfi + sum data + int_of_byte dcs) mod 256 = 0 /\
    (body = [tfi] ++ data ++ [dcs] \/
     (int_of_byte length = 0 /\ body = [tfi] /\ dcs = tfi /\ data = [])).
Proof.
  destruct (read_frame_run s) as (o & Eo & Hp). rewrite Eo.
  intros [= ->]. revert Hp.
  generalize (snd (run _read_frame s)). intros s' Hp.
  inversion Hp as [| | | | | |p1 len_lcs p2 length lcs data_dcs p3 tfi dcs
                            postamble p4 E1 E2 H2 G0 G1 Hl E3 H3 Gt Gd Hd E4
                            Hdata Hs'].
  rewrite performed_after. cbn [reads].
  (* the length pair is exactly two bytes *)
  pose proof (tr_read_le 2 p1 ltac:(lia)) as L2. rewrite E2 in L2. cbn [fst] in L2.
  destruct (len_two len_lcs ltac:(lia)) as (bl & bc & ->).
  rewrite getitem_first in G0. injection G0 as <-.
  change (getitem [bl; bc] 1) with (Ok (int_of_byte bc)) in G1.
  injection G1 as <-. pose proof (int_of_byte_range bl) as Hbl.
  (* the body is exactly length + 1 bytes *)
  pose proof (tr_read_le (int_of_byte bl + 1) p2 ltac:(lia)) as L3.
  rewrite E3 in L3. cbn [fst] in L3.
  rewrite land_255 in Hl, Hd.
  destruct data_dcs as [|t rest]; [unfold len in H3; cbn in H3; lia|].
  rewrite getitem_first in Gt. injection Gt as <-.
  destruct rest as [|r0 rest].
  - (* one body byte *)
    change (getitem [t] (-1)) with (Ok (int_of_byte t)) in Gd.
    injection Gd as <-.
    exists bl, bc, t, t, [t], postamble.
    change (slice [t] (Some 1) (Some (-1))) with (@nil byte) in *.
    repeat split; try assumption; try lia.
    right. repeat split; try reflexivity.
    unfold len in H3, L3. cbn in H3, L3. lia.
  - destruct (exists_last (l := r0 :: rest)) as (mid & d & Hrest);
      [discriminate|].
    rewrite Hrest in *.
    rewrite getitem_last in Gd. injection Gd as <-.
    rewrite slice_inner in *.
    exists bl, bc, t, d, (t :: mid ++ [d]), postamble.
    repeat split; try assumption; try lia.
    left. reflexivity.
Qed.

End DecoderSoundness.

Lemma read_frame_accepts_only_verified_witness :
  fst (run _read_frame (mock false [x00; x00; xff; x02; xfe; xd5; x15; x16; x00]))
  = Ok (Some [x15]) /\
  exists (length lcs tfi dcs : byte) (body postamble : bytes),
    reads (performed (mock false [x00; x00; xff; x02; xfe; xd5; x15; x16; x00])
             (snd (run _read_frame
                     (mock false [x00; x00; xff; x02; xfe; xd5; x15; x16; x00]))))
    = [(3, HEADER); (2, [length; lcs]); (int_of_byte length + 1, body);
       (1, postamble)] /\
    (int_of_byte length + int_of_byte lcs) mod 256 = 0 /\
    len body = int_of_byte length + 1 /\
    (int_of_byte tfi + sum [x15] + int_of_byte dcs) mod 256 = 0 /\
    (body = [tfi] ++ [x15] ++ [dcs] \/
     (int_of_byte length = 0 /\ body = [tfi] /\ dcs = tfi /\ [x15] = [])).
Proof.
  split; [reflexivity|].
  apply (read_frame_accepts_only_verified
           (mock false [x00; x00; xff; x02; xfe; xd5; x15; x16; x00]) [x15]).
  reflexivity.
Defined.

(** The decoder on a stream that starts with a header, a verified length pair
    and a body of the declared size. *)
Lemma mock_read_frame_body
  (s : self MockSerial) (bl bc : byte) (body tail : bytes) :
  (int_of_byte bl + int_of_byte bc) mod 256 = 0 ->
  len body = int_of_byte bl + 1 ->
  rx (serial s) = [x00; x00; xff; bl; bc] ++ body ++ tail ->
  exists tfi dcs,
    getitem body 0 = Ok tfi /\ getitem body (-1) = Ok dcs /\
    run _read_frame s
    = if Z.land (tfi + sum (slice body (Some 1) (Some (-1))) + dcs) 255 =? 0
      then (Ok (Some (slice body (Some 1) (Some (-1)))),
            after s {| rx := skipn 1 tail; tx := tx (serial s) |}
              [Read 3 HEADER; Read 2 [bl; bc];
               Read (int_of_byte bl + 1) body; Read 1 (firstn 1 tail)])
      else (Ok None,
            after s {| rx := tail; tx := tx (serial s) |}
              [Read 3 HEADER; Read 2 [bl; bc];
               Read (int_of_byte bl + 1) body; Print "⚠️ Invalid DCS"]).
Proof.
  intros Hl Hb Hrx. pose proof (int_of_byte_range bl) as Hbl.
  destruct (getitem_in_range body 0) as (t & Gt & _); [lia|].
  destruct (getitem_in_range body (-1)) as (d & Gd & _); [lia|].
  exists (int_of_byte t), (int_of_byte d). split; [exact Gt|]. split; [exact Gd|].
  destruct s as [[input out] dbg hist]. cbn [rx serial tx] in *. subst input.
  set (s := {| serial := _ |}).
  assert (E1 : tr_read 3 (serial s)
               = (HEADER, {| rx := [bl; bc] ++ body ++ tail; tx := out |}))
    by (apply (mock_read_app HEADER); reflexivity).
  pose proof (mock_read_app [bl; bc] (body ++ tail) out 2 eq_refl) as E2.
  pose proof (mock_read_app body tail out (int_of_byte bl + 1) (eq_sym Hb)) as E3.
  assert (Hlcs : Z.land (int_of_byte bl + int_of_byte bc) 255 = 0)
    by (rewrite land_255; exact Hl).
  assert (L2 : 2 <= len [bl; bc]) by (unfold len; cbn; lia).
  destruct (Z.eqb_spec
              (Z.land (int_of_byte t + sum (slice body (Some 1) (Some (-1)))
                       + int_of_byte d) 255) 0) as [Hd|Hd].
  - apply read_frame_path_run.
    apply (rf_accept s _ [bl; bc] _ _ _ body _ _ _ (firstn 1 tail)
             {| rx := skipn 1 tail; tx := out |}
             E1 E2 L2 (getitem_first bl [bc]) eq_refl Hlcs E3
             ltac:(lia) Gt Gd Hd).
    reflexivity.
  - apply read_frame_path_run.
    apply (rf_bad_dcs s _ [bl; bc] _ _ _ body _ _ _
             E1 E2 L2 (getitem_first bl [bc]) eq_refl Hlcs E3
             ltac:(lia) Gt Gd Hd).
Qed.

(** X3. The decoder accepts a frame with any direction tag and any data of
    up to 254 bytes, provided length byte and both checksums fit, and returns
    the data. The byte after the data checksum is consumed without being
    looked at: whatever follows, or nothing at all, the frame is accepted. *)
Theorem read_frame_any_tag_any_postamble
  (s : self MockSerial) (tfi bl bc bd : byte) (data tail : bytes) :
  int_of_byte bl = len data + 1 ->
  (int_of_byte bl + int_of_byte bc) mod 256 = 0 ->
  (int_of_byte tfi + sum data + int_of_byte bd) mod 256 = 0 ->
  rx (serial s) = [x00; x00; xff; bl; bc; tfi] ++ data ++ [bd] ++ tail ->
  fst (run _read_frame s) = Ok (Some data) /\
  rx (serial (snd (run _read_frame s))) = skipn 1 tail.
Proof.
  intros Hl Hc Hd Hrx.
  destruct (mock_read_frame_body s bl bc (tfi :: data ++ [bd]) tail Hc)
    as (t & d & Gt & Gd & E).
  - rewrite len_cons, len_app. change (len [bd]) with 1. lia.
  - rewrite Hrx. cbn. rewrite <- app_assoc. reflexivity.
  - rewrite getitem_first in Gt. rewrite getitem_last in Gd.
    injection Gt as <-. injection Gd as <-.
    rewrite slice_inner in E. rewrite land_255, Hd in E. cbn [Z.eqb] in E.
    rewrite E. split; reflexivity.
Qed.

Lemma read_frame_any_tag_any_postamble_witness :
  int_of_byte x02 = len [x15] + 1 /\
  (int_of_byte x02 + int_of_byte xfe) mod 256 = 0 /\
  (int_of_byte xd5 + sum [x15] + int_of_byte x16) mod 256 = 0 /\
  fst (run _read_frame (mock false ([x00; x00; xff; x02; xfe; xd5] ++ [x15]
                                    ++ [x16] ++ [])))
  = Ok (Some [x15]) /\
  rx (serial (snd (run _read_frame
                     (mock false ([x00; x00; xff; x02; xfe; xd5] ++ [x15]
                                  ++ [x16] ++ [])))))
  = skipn 1 [].
Proof.
  split; [reflexivity|]. split; [reflexivity|]. split; [reflexivity|].
  apply (read_frame_any_tag_any_postamble
           (mock false ([x00; x00; xff; x02; xfe; xd5] ++ [x15] ++ [x16] ++ []))
           xd5 x02 xfe x16 [x15] []); reflexivity.
Defined.

(** ** Corruption of an encoded frame *)

Lemma body_checksum_sum (body : bytes) (t d : Z) :
  2 <= len body ->
  getitem body 0 = Ok t ->
  getitem body (-1) = Ok d ->
  t + sum (slice body (Some 1) (Some (-1))) + d = sum body.
Proof.
  intros H Gt Gd. destruct (body_split body H) as (a & z & mid & ->).
  cbn [app] in *. rewrite getitem_first in Gt. rewrite getitem_last in Gd.
  injection Gt as <-. injection Gd as <-.
  rewrite slice_inner, sum_cons, sum_app.
  change (sum [z]) with (0 + int_of_byte z). lia.
Qed.

Lemma changed_byte_breaks_sum (total : Z) (b b' : byte) :
  total mod 256 = 0 -> b' <> b ->
  (total - int_of_byte b + int_of_byte b') mod 256 <> 0.
Proof.
  intros H0 Hne H1.
  assert (Hd : int_of_byte b' <> int_of_byte b)
    by (intros E; apply Hne, int_of_byte_inj, E).
  pose proof (int_of_byte_range b). pose proof (int_of_byte_range b').
  apply Z.mod_divide in H0; [|lia]. apply Z.mod_divide in H1; [|lia].
  destruct H0 as [k Hk]. destruct H1 as [m Hm]. lia.
Qed.

Lemma mock_bad_header (s : self MockSerial) (h back : bytes) :
  len h = 3 -> h <> HEADER -> rx (serial s) = h ++ back ->
  fst (run _read_frame s) = Ok None.
Proof.
  intros Hl Hh Hrx. destruct s as [[input out] dbg hist].
  cbn [rx serial] in Hrx. subst input.
  erewrite read_frame_path_run; [reflexivity|].
  eapply rf_bad_header; [|rewrite Hl; lia|exact Hh].
  cbn [serial]. apply mock_read_app. symmetry. exact Hl.
Qed.

Lemma mock_bad_lcs (s : self MockSerial) (l c : byte) (back : bytes) :
  (int_of_byte l + int_of_byte c) mod 256 <> 0 ->
  rx (serial s) = [x00; x00; xff; l; c] ++ back ->
  fst (run _read_frame s) = Ok None.
Proof.
  intros Hne Hrx. destruct s as [[input out] dbg hist].
  cbn [rx serial] in Hrx. subst input.
  erewrite read_frame_path_run; [reflexivity|].
  eapply rf_bad_lcs with (len_lcs := [l; c]).
  - cbn [serial]. apply (mock_read_app HEADER). reflexivity.
  - apply (mock_read_app [l; c]). reflexivity.
  - unfold len. cbn. lia.
  - apply getitem_first.
  - reflexivity.
  - rewrite land_255. exact Hne.
Qed.

(** X4. Changing any single byte of an encoded frame other than its last
    byte (the postamble) makes the decoder reject it: a changed header byte
    fails the header comparison, a changed length or length-checksum byte
    fails the length checksum, and a changed tag, data or data-checksum byte
    fails the data checksum. *)
Theorem frame_corruption_detected
  (s : self MockSerial) (data pre suf rest : bytes) (b b' : byte) :
  _build_frame data = Ok (pre ++ [b] ++ suf) ->
  b' <> b ->
  suf <> [] ->
  rx (serial s) = pre ++ [b'] ++ suf ++ rest ->
  fst (run _read_frame s) = Ok None.
Proof.
  intros E Hne Hsuf Hrx. apply build_frame_inv in E.
  destruct E as (bl & bc & bd & E & Hl & Hc & Hd).
  assert (Hlc : (int_of_byte bl + int_of_byte bc) mod 256 = 0).
  { rewrite Hl, Hc, Zplus_mod_idemp_r.
    replace (_ + - _) with 0 by lia. reflexivity. }
  change ([xd4] ++ data) with (xd4 :: data) in Hd.
  assert (Hsum : sum (xd4 :: data ++ [bd]) mod 256 = 0).
  { rewrite sum_cons, sum_app. change (sum [bd]) with (0 + int_of_byte bd).
    rewrite Hd, sum_cons.
    replace (_ + (_ + (0 + _))) with ((int_of_byte xd4 + sum data)
      + (- (int_of_byte xd4 + sum data)) mod 256) by lia.
    rewrite Zplus_mod_idemp_r.
    replace (_ + - _) with 0 by lia. reflexivity. }
  cbn [app] in E.
  destruct pre as [|p0 [|p1 [|p2 [|p3 [|p4 pre]]]]]; cbn [app] in E, Hrx.
  - injection E as -> ->. eapply (mock_bad_header s [b'; x00; xff]);
      [reflexivity| |rewrite Hrx; reflexivity].
    intros [= ->]. contradiction.
  - injection E as -> -> ->. eapply (mock_bad_header s [x00; b'; xff]);
      [reflexivity| |rewrite Hrx; reflexivity].
    intros [= ->]. contradiction.
  - injection E as -> -> -> ->. eapply (mock_bad_header s [x00; x00; b']);
      [reflexivity| |rewrite Hrx; reflexivity].
    intros [= ->]. contradiction.
  - injection E as -> -> -> -> ->.
    eapply (mock_bad_lcs s b' bc); [|rewrite Hrx; reflexivity].
    replace (int_of_byte b' + int_of_byte bc)
      with ((int_of_byte bl + int_of_byte bc) - int_of_byte bl + int_of_byte b')
      by lia.
    apply changed_byte_breaks_sum; assumption.
  - injection E as -> -> -> -> -> ->.
    eapply (mock_bad_lcs s bl b'); [|rewrite Hrx; reflexivity].
    replace (int_of_byte bl + int_of_byte b')
      with ((int_of_byte bl + int_of_byte bc) - int_of_byte bc + int_of_byte b')
      by lia.
    apply changed_byte_breaks_sum; assumption.
  - injection E as -> -> -> -> -> E.
    (* the changed byte lies in the body; the postamble closes [suf] *)
    destruct (exists_last Hsuf) as (suf' & z & ->).
    assert (Eb : pre ++ [b] ++ suf' = xd4 :: data ++ [bd] /\ z = x00).
    { apply (app_inj_tail (pre ++ [b] ++ suf') (xd4 :: data ++ [bd]) z x00).
      cbn [app]. rewrite <- !app_assoc. cbn [app]. exact E. }
    destruct Eb as [Eb ->]. symmetry in Eb.
    assert (Hlen : len (pre ++ [b'] ++ suf') = int_of_byte bl + 1).
    { rewrite Hl. rewrite !len_app.
      assert (H' : len (xd4 :: data ++ [bd]) = len (pre ++ [b] ++ suf'))
        by (rewrite Eb; reflexivity).
      rewrite len_cons, !len_app in H'.
      change (len [bd]) with 1 in H'. change (len [b]) with 1 in H'.
      change (len [b']) with 1. lia. }
    destruct (mock_read_frame_body s bl bc (pre ++ [b'] ++ suf') ([x00] ++ rest)
                Hlc Hlen) as (t & d & Gt & Gd & Er).
    { rewrite Hrx. cbn [app]. do 5 f_equal. rewrite <- !app_assoc. reflexivity. }
    pose proof (int_of_byte_range bl) as Hbl.
    pose proof (len_nonneg data) as Hdata.
    rewrite (body_checksum_sum (pre ++ [b'] ++ suf') t d ltac:(lia) Gt Gd) in Er.
    rewrite Eb in Hsum. rewrite !sum_app in Hsum.
    replace (Z.land (sum (pre ++ [b'] ++ suf')) 255 =? 0) with false in Er.
    + rewrite Er. reflexivity.
    + symmetry. apply Z.eqb_neq. rewrite land_255, !sum_app.
      change (sum [b']) with (0 + int_of_byte b').
      change (sum [b]) with (0 + int_of_byte b) in Hsum.
      replace (sum pre + (0 + int_of_byte b' + sum suf'))
        with ((sum pre + (0 + int_of_byte b + sum suf')) - int_of_byte b
              + int_of_byte b') by lia.
      apply changed_byte_breaks_sum; assumption.
Qed.

Lemma frame_corruption_detected_witness :
  _build_frame [x02] = Ok ([x00; x00; xff; x02; xfe; xd4] ++ [x02] ++ [x2a; x00]) /\
  x03 <> x02 /\
  [x2a; x00] <> [] /\
  fst (run _read_frame
         (mock false ([x00; x00; xff; x02; xfe; xd4] ++ [x03] ++ [x2a; x00] ++ [])))
  = Ok None.
Proof.
  split; [reflexivity|]. split; [discriminate|]. split; [discriminate|].
  apply (frame_corruption_detected
           (mock false ([x00; x00; xff; x02; xfe; xd4] ++ [x03] ++ [x2a; x00] ++ []))
           [x02] [x00; x00; xff; x02; xfe; xd4] [x2a; x00] [] x02 x03);
    [reflexivity | discriminate | discriminate | reflexivity].
Defined.

(** ** The command channel as a whole *)

Lemma say_serial {P : Type} (l : list string) (s : self P) :
  serial (say l s) = serial s.
Proof. unfold say. destruct (debug s); reflexivity. Qed.

Section ChannelOutcome.

Context {P : Type} {T : Transport P}.

(** What [send_command] leaves behind whenever its frame could be built. *)
Lemma send_command_returns
  (s : self P) (command params frame : bytes) :
  _build_frame (command ++ params) = Ok frame ->
  exists o s1,
    run (send_command command params) s = (Ok o, s1) /\
    writes (history s1) = writes (history s) ++ [frame].
Proof.
  intros Eb.
  destruct (tr_read 6 (tr_write frame (serial s))) as [ack p] eqn:Er.
  pose proof (send_command_run s command params frame ack p Eb Er) as E.
  cbv zeta in E.
  assert (Hok : exists o s1, run (send_command command params) s = (Ok o, s1)).
  { rewrite E. destruct (bytes_eqb ack ACK); [|eauto].
    match goal with
    | |- context [run _read_frame ?s2] =>
        destruct (read_frame_run s2) as (o & Eo & _);
        destruct (run _read_frame s2) as [r s3]
    end.
    cbn [fst] in Eo. subst r. eauto. }
  destruct Hok as (o & s1 & Hrun). exists o, s1. split; [exact Hrun|].
  destruct (send_command_writes_once _ _ _ _ _ Hrun) as (frame' & Ef & Hw).
  rewrite Eb in Ef. injection Ef as <-. exact Hw.
Qed.

Lemma send_command_too_long (s : self P) (command params : bytes) :
  254 < len (command ++ params) ->
  run (send_command command params) s = (Raise ValueError, s).
Proof.
  intros Hlen. unfold send_command. mrun.
  replace (_build_frame (command ++ params)) with (@Raise bytes ValueError);
    [reflexivity|].
  symmetry. unfold _build_frame. rewrite bytes_of_singleton.
  rewrite byte_of_int_out_of_range by lia. reflexivity.
Qed.

(** X5. [send_command] never lets an exception other than the encoder's
    [ValueError] escape, whatever the handle returns: with at most 254 bytes
    of command and parameters it returns ([None] or a payload) after writing
    its frame exactly once; with more it raises [ValueError] and has done
    nothing. *)
Theorem send_command_outcome (s : self P) (command params : bytes) :
  (len (command ++ params) <= 254 ->
   exists frame o s1,
     _build_frame (command ++ params) = Ok frame /\
     run (send_command command params) s = (Ok o, s1) /\
     writes (history s1) = writes (history s) ++ [frame]) /\
  (254 < len (command ++ params) ->
   run (send_command command params) s = (Raise ValueError, s)).
Proof.
  split.
  - intros Hlen. destruct (build_frame_total _ Hlen) as [frame Eb].
    destruct (send_command_returns s command params frame Eb) as (o & s1 & H).
    exists frame, o, s1. split; [exact Eb | exact H].
  - apply send_command_too_long.
Qed.

End ChannelOutcome.

(** The decoder on a well-formed frame: result and handle afterwards. *)
Lemma mock_read_frame_valid
  (s : self MockSerial) (tfi bl bc bd : byte) (data tail : bytes) :
  int_of_byte bl = len data + 1 ->
  (int_of_byte bl + int_of_byte bc) mod 256 = 0 ->
  (int_of_byte tfi + sum data + int_of_byte bd) mod 256 = 0 ->
  rx (serial s) = [x00; x00; xff; bl; bc; tfi] ++ data ++ [bd] ++ tail ->
  fst (run _read_frame s) = Ok (Some data) /\
  serial (snd (run _read_frame s))
  = {| rx := skipn 1 tail; tx := tx (serial s) |}.
Proof.
  intros Hl Hc Hd Hrx.
  destruct (mock_read_frame_body s bl bc (tfi :: data ++ [bd]) tail Hc)
    as (t & d & Gt & Gd & E).
  - rewrite len_cons, len_app. change (len [bd]) with 1. lia.
  - rewrite Hrx. cbn. rewrite <- app_assoc. reflexivity.
  - rewrite getitem_first in Gt. rewrite getitem_last in Gd.
    injection Gt as <-. injection Gd as <-.
    rewrite slice_inner in E. rewrite land_255, Hd in E. cbn [Z.eqb] in E.
    rewrite E. split; reflexivity.
Qed.

(** X6. A complete exchange on the wire: when the handle delivers the ACK
    and then a frame with any direction tag whose length byte and checksums
    fit, [send_command] returns that frame's data, has transmitted exactly
    the encoded request, and leaves in the input whatever follows the byte
    after the data checksum. *)
Theorem send_command_exchange
  (s : self MockSerial) (command params : bytes)
  (tfi bl bc bd : byte) (data tail : bytes) :
  len (command ++ params) <= 254 ->
  int_of_byte bl = len data + 1 ->
  (int_of_byte bl + int_of_byte bc) mod 256 = 0 ->
  (int_of_byte tfi + sum data + int_of_byte bd) mod 256 = 0 ->
  rx (serial s) = ACK ++ [x00; x00; xff; bl; bc; tfi] ++ data ++ [bd] ++ tail ->
  exists frame,
    _build_frame (command ++ params) = Ok frame /\
    fst (run (send_command command params) s) = Ok (Some data) /\
    tx (serial (snd (run (send_command command params) s)))
    = tx (serial s) ++ frame /\
    rx (serial (snd (run (send_command command params) s))) = skipn 1 tail.
Proof.
  intros Hlen Hl Hc Hd Hrx.
  destruct (build_frame_total _ Hlen) as [frame Eb].
  exists frame. split; [exact Eb|].
  destruct s as [[input out] dbg hist]. cbn [rx serial tx] in *. subst input.
  set (s := {| serial := _ |}).
  set (back := [x00; x00; xff; bl; bc; tfi] ++ data ++ [bd] ++ tail).
  assert (Er : tr_read 6 (tr_write frame (serial s))
               = (ACK, {| rx := back; tx := out ++ frame |}))
    by (apply (mock_read_app ACK); reflexivity).
  rewrite (send_command_run s command params frame ACK _ Eb Er).
  cbv zeta. change (bytes_eqb ACK ACK) with true. cbv iota.
  match goal with
  | |- context [run _read_frame ?s2] =>
      destruct (mock_read_frame_valid s2 tfi bl bc bd data tail Hl Hc Hd)
        as [E1 E2];
      [rewrite say_serial; reflexivity|];
      rewrite say_serial in E2; cbn [after serial tx] in E2;
      destruct (run _read_frame s2) as [r s3]
  end.
  cbn [fst snd] in E1, E2. subst r. cbn [fst snd].
  split; [reflexivity|].
  destruct data as [|d0 data]; rewrite ?say_serial, E2; split; reflexivity.
Qed.

Lemma send_command_outcome_witness :
  len (CMD_GET_FIRMWARE_VERSION ++ []) <= 254 /\
  exists frame o s1,
    _build_frame (CMD_GET_FIRMWARE_VERSION ++ []) = Ok frame /\
    run (send_command CMD_GET_FIRMWARE_VERSION []) (mock false NACK) = (Ok o, s1) /\
    writes (history s1) = writes (history (mock false NACK)) ++ [frame].
Proof.
  split; [unfold len; cbn; lia|].
  apply (send_command_outcome (mock false NACK) CMD_GET_FIRMWARE_VERSION []).
  unfold len. cbn. lia.
Defined.

Lemma send_command_exchange_witness :
  len (CMD_GET_FIRMWARE_VERSION ++ []) <= 254 /\
  int_of_byte x02 = len [x15] + 1 /\
  (int_of_byte x02 + int_of_byte xfe) mod 256 = 0 /\
  (int_of_byte xd5 + sum [x15] + int_of_byte x16) mod 256 = 0 /\
  exists frame,
    _build_frame (CMD_GET_FIRMWARE_VERSION ++ []) = Ok frame /\
    fst (run (send_command CMD_GET_FIRMWARE_VERSION [])
           (mock false (ACK ++ [x00; x00; xff; x02; xfe; xd5] ++ [x15] ++ [x16]
                        ++ [x00; x77])))
    = Ok (Some [x15]) /\
    tx (serial (snd (run (send_command CMD_GET_FIRMWARE_VERSION [])
           (mock false (ACK ++ [x00; x00; xff; x02; xfe; xd5] ++ [x15] ++ [x16]
                        ++ [x00; x77])))))
    = tx (serial (mock false (ACK ++ [x00; x00; xff; x02; xfe; xd5] ++ [x15]
                              ++ [x16] ++ [x00; x77]))) ++ frame /\
    rx (serial (snd (run (send_command CMD_GET_FIRMWARE_VERSION [])
           (mock false (ACK ++ [x00; x00; xff; x02; xfe; xd5] ++ [x15] ++ [x16]
                        ++ [x00; x77])))))
    = skipn 1 [x00; x77].
Proof.
  split; [unfold len; cbn; lia|]. split; [reflexivity|].
  split; [reflexivity|]. split; [reflexivity|].
  apply (send_command_exchange
           (mock false (ACK ++ [x00; x00; xff; x02; xfe; xd5] ++ [x15] ++ [x16]
                        ++ [x00; x77]))
           CMD_GET_FIRMWARE_VERSION [] xd5 x02 xfe x16 [x15] [x00; x77]);
    try reflexivity.
  unfold len. cbn. lia.
Defined.

(** ** Parsing a detection response *)

Lemma run_bind {P : Type} {A B : Type}
  (m : M P A) (k : A -> M P B) (s : self P) :
  run (m >>= k) s
  = match run m s with
    | (Ok a, s') => run (k a) s'
    | (Raise e, s') => (Raise e, s')
    end.
Proof. reflexivity. Qed.

Lemma getitem_nth (bs : bytes) (i : nat) (b : byte) :
  nth_error bs i = Some b -> getitem bs (Z.of_nat i) = Ok (int_of_byte b).
Proof.
  intros H. assert (Hi : (i < List.length bs)%nat)
    by (apply nth_error_Some; congruence).
  destruct (getitem_in_range bs (Z.of_nat i)) as (b' & -> & Hb').
  - unfold len. lia.
  - replace (Z.of_nat i <? 0) with false in Hb'
      by (symmetry; apply Z.ltb_ge; lia).
    rewrite Nat2Z.id in Hb'. congruence.
Qed.

Lemma slice_prefix (bs : bytes) (a n : nat) :
  (a <= List.length bs)%nat ->
  slice bs (Some (Z.of_nat a)) (Some (Z.of_nat a + Z.of_nat n))
  = firstn n (skipn a bs).
Proof.
  intros Ha. unfold slice, clamp, len.
  replace (Z.of_nat a <? 0) with false by (symmetry; apply Z.ltb_ge; lia).
  replace (Z.of_nat a + Z.of_nat n <? 0) with false
    by (symmetry; apply Z.ltb_ge; lia).
  rewrite (Z.min_l (Z.of_nat a)) by lia. rewrite Nat2Z.id.
  destruct (Z_le_dec (Z.of_nat a + Z.of_nat n) (Z.of_nat (List.length bs)))
    as [Hle|Hgt].
  - rewrite Z.min_l by lia.
    replace (Z.to_nat (Z.of_nat a + Z.of_nat n - Z.of_nat a)) with n by lia.
    reflexivity.
  - rewrite Z.min_r by lia.
    replace (Z.to_nat _) with (List.length (skipn a bs))
      by (rewrite length_skipn; lia).
    rewrite firstn_all. symmetry. apply firstn_all2.
    rewrite length_skipn. lia.
Qed.

Section Detection.

Context {P : Type} {T : Transport P}.

(** The descriptor built from a response of at least six bytes. *)
Lemma detect_fields (r : bytes) (count tn q0 q1 sak ul : byte) (tail : bytes) :
  r = count :: tn :: q0 :: q1 :: sak :: ul :: tail ->
  getitem r 0 = Ok (int_of_byte count) /\
  getitem r 1 = Ok (int_of_byte tn) /\
  getitem r 4 = Ok (int_of_byte sak) /\
  getitem r 5 = Ok (int_of_byte ul) /\
  slice r (Some 2) (Some 4) = [q0; q1] /\
  slice r (Some 6) (Some (6 + int_of_byte ul))
  = firstn (Z.to_nat (int_of_byte ul)) tail.
Proof.
  intros ->. pose proof (int_of_byte_range ul) as Hul.
  split; [apply (getitem_nth _ 0); reflexivity|].
  split; [apply (getitem_nth _ 1); reflexivity|].
  split; [apply (getitem_nth _ 4); reflexivity|].
  split; [apply (getitem_nth _ 5); reflexivity|].
  split.
  - change (Some 4) with (Some (Z.of_nat 2 + Z.of_nat 2)).
    change (Some 2) with (Some (Z.of_nat 2)).
    rewrite slice_prefix by (cbn [List.length]; lia). reflexivity.
  - replace (6 + int_of_byte ul)
      with (Z.of_nat 6 + Z.of_nat (Z.to_nat (int_of_byte ul))) by lia.
    change (Some 6) with (Some (Z.of_nat 6)).
    rewrite slice_prefix by (cbn [List.length]; lia). reflexivity.
Qed.

(** Everything [read_passive_target] can do with what [send_command]
    returned. *)
Lemma detect_outcome
  (s s1 : self P) (card_type max_targets : Z) (params : bytes)
  (response : option bytes) :
  bytes_of [max_targets; card_type] = Ok params ->
  run (send_command CMD_IN_LIST_PASSIVE_TARGET params)
      (say [scanning_line max_targets] s)
  = (Ok response, s1) ->
  match response with
  | Some (count :: tn :: rest) =>
      if int_of_byte count =? 0
      then run (read_passive_target card_type max_targets) s
           = (Ok None, say ["❌ No cards detected"%string] s1)
      else match rest with
           | q0 :: q1 :: sak :: ul :: tail =>
               fst (run (read_passive_target card_type max_targets) s)
               = Ok (Some
                   {| ci_target_number := int_of_byte tn;
                      ci_sens_res := hex_upper [q0; q1];
                      ci_sel_res := format_02X (int_of_byte sak);
                      ci_uid_length := int_of_byte ul;
                      ci_uid :=
                        hex_upper (firstn (Z.to_nat (int_of_byte ul)) tail);
                      ci_card_type := _identify_card_type (int_of_byte sak) |}) /\
               serial (snd (run (read_passive_target card_type max_targets) s))
               = serial s1 /\
               writes (history (snd (run (read_passive_target card_type
                                            max_targets) s)))
               = writes (history s1)
           | _ =>
               run (read_passive_target card_type max_targets) s
               = (Raise IndexError, s1)
           end
  | _ =>
      run (read_passive_target card_type max_targets) s
      = (Ok None, say ["❌ No cards detected"%string] s1)
  end.
Proof.
  intros Hb Hs.
  pose proof (detect_prefix_run s s1 card_type max_targets params response
                Hb Hs) as Hrun.
  assert (Hnone : forall s' : self P,
            run (dbg <- get_debug ;;
                 when dbg (print "❌ No cards detected") ;;
                 ret (@None card_info)) s'
            = (Ok None, say ["❌ No cards detected"%string] s')).
  { intros [p' [|] h']; reflexivity. }
  unfold read_passive_target. rewrite Hrun. clear Hrun Hs.
  destruct response as [[|count [|tn rest]]|]; try apply Hnone.
  cbn [truthy negb orb]. rewrite len_ge_2. cbv iota.
  rewrite run_bind. cbn [lift run]. rewrite getitem_first.
  destruct (int_of_byte count =? 0); [apply Hnone|].
  destruct rest as [|q0 [|q1 [|sak [|ul tail]]]];
    try (destruct s1 as [p1 dbg h1]; reflexivity).
  destruct (detect_fields _ count tn q0 q1 sak ul tail eq_refl)
    as (_ & G1 & G4 & G5 & S1 & S2).
  rewrite !run_bind. cbn [lift run]. rewrite G1.
  rewrite !run_bind. cbn [lift run]. rewrite G4.
  rewrite !run_bind. cbn [lift run]. rewrite G5.
  rewrite S1, S2.
  destruct s1 as [p1 [|] h1]; mrun; norm_state; cbn [fst snd serial history];
    rewrite ?writes_app; cbn [writes]; rewrite ?app_nil_r;
    repeat split; reflexivity.
Qed.

(** X7. A detection response of six bytes or more with a nonzero count is
    parsed as count, target number, ATQA (2 bytes), SAK, UID length, UID. The
    UID is the declared number of bytes after the length byte or, when fewer
    are present, all that are present: the descriptor then reports the
    declared length beside a shorter UID, and no error is raised. Nothing is
    read or written after [send_command] returns. *)
Theorem read_passive_target_parse
  (s s1 : self P) (card_type max_targets : Z) (params : bytes)
  (count tn q0 q1 sak ul : byte) (tail : bytes) :
  bytes_of [max_targets; card_type] = Ok params ->
  run (send_command CMD_IN_LIST_PASSIVE_TARGET params)
      (say [scanning_line max_targets] s)
  = (Ok (Some (count :: tn :: q0 :: q1 :: sak :: ul :: tail)), s1) ->
  count <> x00 ->
  fst (run (read_passive_target card_type max_targets) s)
  = Ok (Some
      {| ci_target_number := int_of_byte tn;
         ci_sens_res := hex_upper [q0; q1];
         ci_sel_res := format_02X (int_of_byte sak);
         ci_uid_length := int_of_byte ul;
         ci_uid := hex_upper (firstn (Z.to_nat (int_of_byte ul)) tail);
         ci_card_type := _identify_card_type (int_of_byte sak) |}) /\
  serial (snd (run (read_passive_target card_type max_targets) s)) = serial s1 /\
  writes (history (snd (run (read_passive_target card_type max_targets) s)))
  = writes (history s1).
Proof.
  intros Hb Hs Hcount.
  pose proof (detect_outcome s s1 card_type max_targets params _ Hb Hs) as H.
  cbv beta iota in H.
  replace (int_of_byte count =? 0) with false in H
    by (symmetry; apply Z.eqb_neq; rewrite int_of_byte_zero; exact Hcount).
  exact H.
Qed.

(** X8. With parameters in range, [read_passive_target] raises exactly when
    the response has a nonzero first byte and 2 to 5 bytes in all; the
    exception is [IndexError], raised when [send_command] has returned and
    before anything else is done. Every other response gives a descriptor or
    [None]. *)
Theorem read_passive_target_raises_iff
  (s s1 : self P) (card_type max_targets : Z) (params : bytes)
  (response : option bytes) :
  bytes_of [max_targets; card_type] = Ok params ->
  run (send_command CMD_IN_LIST_PASSIVE_TARGET params)
      (say [scanning_line max_targets] s)
  = (Ok response, s1) ->
  ((exists e s', run (read_passive_target card_type max_targets) s
                 = (Raise e, s'))
   <-> exists count r, response = Some (count :: r) /\ count <> x00 /\
                       2 <= len (count :: r) < 6) /\
  (forall e s', run (read_passive_target card_type max_targets) s = (Raise e, s')
     -> e = IndexError /\ s' = s1).
Proof.
  intros Hb Hs.
  pose proof (detect_outcome s s1 card_type max_targets params _ Hb Hs) as H.
  assert (Hfst : forall (A : Type) (x : result A * self P) a,
            fst x = Ok a -> forall e s', x <> (Raise e, s')).
  { intros A [r s0] a Hx e s' E. cbn in Hx. congruence. }
  assert (Hno : run (read_passive_target card_type max_targets) s
                = (Ok None, say ["❌ No cards detected"%string] s1) ->
                forall e s', run (read_passive_target card_type max_targets) s
                             <> (Raise e, s')).
  { intros E e s' E'. rewrite E in E'. discriminate. }
  destruct response as [[|count [|tn rest]]|].
  - (* empty payload *)
    split; [split|].
    + intros (e & s' & E). exfalso. exact (Hno H e s' E).
    + intros (c & r & E & _). discriminate E.
    + intros e s' E. exfalso. exact (Hno H e s' E).
  - (* one byte *)
    split; [split|].
    + intros (e & s' & E). exfalso. exact (Hno H e s' E).
    + intros (c & r & E & _ & Hl). injection E as <- <-.
      unfold len in Hl. cbn in Hl. lia.
    + intros e s' E. exfalso. exact (Hno H e s' E).
  - destruct (Z.eqb_spec (int_of_byte count) 0) as [Hz|Hz].
    + (* zero count *)
      apply int_of_byte_zero in Hz. subst count.
      split; [split|].
      * intros (e & s' & E). exfalso. exact (Hno H e s' E).
      * intros (c & r & E & Hc & _). injection E as <- <-. contradiction.
      * intros e s' E. exfalso. exact (Hno H e s' E).
    + assert (Hc : count <> x00) by (intros ->; apply Hz; reflexivity).
      destruct rest as [|q0 [|q1 [|sak [|ul tail]]]].
      5:{ (* six bytes or more *)
          destruct H as (H & _).
          split; [split|].
          - intros (e & s' & E). exfalso. exact (Hfst _ _ _ H e s' E).
          - intros (c & r & E & _ & Hl). injection E as <- <-.
            rewrite !len_cons in Hl. pose proof (len_nonneg tail). lia.
          - intros e s' E. exfalso. exact (Hfst _ _ _ H e s' E). }
      all: (split; [split|];
        [intros _; eexists _, _; split; [reflexivity|]; split; [exact Hc|];
         unfold len; cbn; lia
        |intros _; eexists _, _; exact H
        |intros e s' E; rewrite H in E; injection E as <- <-; split; reflexivity]).
  - (* no response *)
    split; [split|].
    + intros (e & s' & E). exfalso. exact (Hno H e s' E).
    + intros (c & r & E & _). discriminate E.
    + intros e s' E. exfalso. exact (Hno H e s' E).
Qed.

End Detection.

Lemma read_passive_target_parse_witness :
  bytes_of [1; 0] = Ok [x01; x00] /\
  fst (run (send_command CMD_IN_LIST_PASSIVE_TARGET [x01; x00])
         (say [scanning_line 1] (mock false stream_card_short_uid)))
  = Ok (Some [x01; x01; x00; x04; x08; x07; xde; xad; xbe; xef]) /\
  x01 <> x00 /\
  fst (run (read_passive_target 0 1) (mock false stream_card_short_uid))
  = Ok (Some
      {| ci_target_number := 1;
         ci_sens_res := "0004";
         ci_sel_res := "08";
         ci_uid_length := 7;
         ci_uid := "DEADBEEF";
         ci_card_type := "MIFARE Classic 1K" |}).
Proof.
  split; [reflexivity|]. split; [reflexivity|]. split; [discriminate|].
  apply (read_passive_target_parse (mock false stream_card_short_uid)
           (snd (run (send_command CMD_IN_LIST_PASSIVE_TARGET [x01; x00])
                   (say [scanning_line 1] (mock false stream_card_short_uid))))
           0 1 [x01; x00] x01 x01 x00 x04 x08 x07 [xde; xad; xbe; xef]);
    [reflexivity | reflexivity | discriminate].
Defined.

Lemma read_passive_target_raises_iff_witness :
  bytes_of [1; 0] = Ok [x01; x00] /\
  fst (run (send_command CMD_IN_LIST_PASSIVE_TARGET [x01; x00])
         (say [scanning_line 1] (mock false stream_short_target)))
  = Ok (Some [x01; x01]) /\
  ((exists e s', run (read_passive_target 0 1) (mock false stream_short_target)
                 = (Raise e, s'))
   <-> exists count r, Some [x01; x01] = Some (count :: r) /\ count <> x00 /\
                       2 <= len (count :: r) < 6).
Proof.
  split; [reflexivity|]. split; [reflexivity|].
  apply (read_passive_target_raises_iff (mock false stream_short_target)
           (snd (run (send_command CMD_IN_LIST_PASSIVE_TARGET [x01; x00])
                   (say [scanning_line 1] (mock false stream_short_target))))
           0 1 [x01; x00] (Some [x01; x01])); reflexivity.
Defined.

(** ** Integer arguments out of range *)

Lemma bytes_of_pair_out_of_range (a b : Z) :
  ~ (0 <= a < 256 /\ 0 <= b < 256) -> bytes_of [a; b] = Raise ValueError.
Proof.
  intros H. cbn [bytes_of]. cbn [bind Monad_result].
  destruct (Z_lt_dec a 0) as [Ha|Ha];
    [rewrite (byte_of_int_out_of_range a) by lia; reflexivity|].
  destruct (Z_le_dec 256 a) as [Ha'|Ha'];
    [rewrite (byte_of_int_out_of_range a) by lia; reflexivity|].
  destruct (byte_of_int_in_range a) as (x & -> & _); [lia|].
  rewrite (byte_of_int_out_of_range b) by lia. reflexivity.
Qed.

Lemma bytes_of_one_out_of_range (a : Z) :
  ~ 0 <= a < 256 -> bytes_of [a] = Raise ValueError.
Proof.
  intros H. rewrite bytes_of_singleton.
  rewrite byte_of_int_out_of_range by lia. reflexivity.
Qed.

Section Arguments.

Context {P : Type} {T : Transport P}.

(** X9. The three methods that turn an int argument into a byte raise
    [ValueError] when it lies outside 0..255. They do so after their debug
    lines and before touching the serial handle: the state left behind is the
    starting state with those lines printed. Two of the debug lines format
    the argument itself ([max_targets], [target] of [release_target]), so in
    debug mode the statement is for arguments that [f"{n}"] can format. *)
Theorem int_argument_out_of_range (s : self P) :
  (forall card_type max_targets,
     ~ (0 <= max_targets < 256 /\ 0 <= card_type < 256) ->
     (debug s = true -> formattable max_targets) ->
     run (read_passive_target card_type max_targets) s
     = (Raise ValueError, say [scanning_line max_targets] s)) /\
  (forall target apdu,
     ~ 0 <= target < 256 ->
     run (transceive_apdu target apdu) s
     = (Raise ValueError, say (transceiving_lines apdu) s)) /\
  (forall target,
     ~ 0 <= target < 256 ->
     (debug s = true -> formattable target) ->
     run (release_target target) s
     = (Raise ValueError, say [releasing_line target] s)).
Proof.
  split; [|split].
  - intros ct mt H _. unfold read_passive_target. mrun.
    rewrite (bytes_of_pair_out_of_range mt ct H).
    destruct s as [p [|] h]; reflexivity.
  - intros target apdu H. unfold transceive_apdu. mrun.
    rewrite (bytes_of_one_out_of_range target H).
    destruct s as [p [|] h]; mrun; norm_state; reflexivity.
  - intros target H _. unfold release_target. mrun.
    rewrite (bytes_of_one_out_of_range target H).
    destruct s as [p [|] h]; reflexivity.
Qed.

End Arguments.

Lemma formattable_small (n : Z) : Z.abs n < 1000 -> formattable n.
Proof.
  intros H. unfold formattable.
  apply Z.lt_le_trans with (10 ^ 3); [exact H|].
  apply Z.pow_le_mono_r; lia.
Qed.

Lemma int_argument_out_of_range_witness :
  ~ (0 <= 256 < 256 /\ 0 <= 0 < 256) /\
  (debug (mock true stream_no_target) = true -> formattable 256) /\
  run (read_passive_target 0 256) (mock true stream_no_target)
  = (Raise ValueError, say [scanning_line 256] (mock true stream_no_target)) /\
  ~ 0 <= -1 < 256 /\
  (debug (mock true stream_no_target) = true -> formattable (-1)) /\
  run (release_target (-1)) (mock true stream_no_target)
  = (Raise ValueError, say [releasing_line (-1)] (mock true stream_no_target)).
Proof.
  destruct (int_argument_out_of_range (mock true stream_no_target))
    as (Hdetect & _ & Hrelease).
  split; [lia|].
  split; [intros _; apply formattable_small; cbn; lia|].
  split.
  { apply Hdetect; [lia|]. intros _. apply formattable_small. cbn. lia. }
  split; [lia|].
  split; [intros _; apply formattable_small; cbn; lia|].
  apply Hrelease; [lia|]. intros _. apply formattable_small. cbn. lia.
Defined.

(** ** Data exchange *)

Lemma slice_tail (a : byte) (l : bytes) : slice (a :: l) (Some 1) None = l.
Proof.
  unfold slice, clamp. rewrite len_cons. pose proof (len_nonneg l).
  change (1 <? 0) with false. cbv iota. rewrite Z.min_l by lia.
  replace (Z.to_nat (len l + 1 - 1)) with (List.length l) by (unfold len; lia).
  change (Z.to_nat 1) with 1%nat. cbn [skipn]. apply firstn_all.
Qed.

Section Exchange.

Context {P : Type} {T : Transport P}.

(** [transceive_apdu] up to the return of [send_command]. *)
Lemma exchange_prefix_run
  (s s1 : self P) (target : Z) (apdu b_target : bytes)
  (response : option bytes) :
  bytes_of [target] = Ok b_target ->
  run (send_command CMD_IN_DATA_EXCHANGE (b_target ++ apdu))
      (say (transceiving_lines apdu) s)
  = (Ok response, s1) ->
  forall k : option bytes -> M P (option bytes),
    run (dbg <- get_debug ;;
         when dbg
           (print (String.append nl "💬 Transceiving APDU:") ;;
            print (String.append "   Command: " (hex_upper apdu))) ;;
         b_target <- lift (bytes_of [target]) ;;
         response <- send_command CMD_IN_DATA_EXCHANGE (b_target ++ apdu) ;;
         k response) s
    = run (k response) s1.
Proof.
  intros Hb Hs k. mrun. rewrite Hb. revert Hs. unfold say, transceiving_lines.
  destruct s as [p0 [|] h]; mrun; norm_state; cbn [map];
    intros ->; reflexivity.
Qed.

Lemma exchange_outcome
  (s s1 : self P) (target : Z) (apdu b_target : bytes)
  (response : option bytes) :
  bytes_of [target] = Ok b_target ->
  run (send_command CMD_IN_DATA_EXCHANGE (b_target ++ apdu))
      (say (transceiving_lines apdu) s)
  = (Ok response, s1) ->
  exists s2,
    run (transceive_apdu target apdu) s = (Ok (payload_of response), s2) /\
    serial s2 = serial s1 /\
    writes (history s2) = writes (history s1).
Proof.
  intros Hb Hs. unfold transceive_apdu.
  rewrite (exchange_prefix_run s s1 target apdu b_target response Hb Hs).
  clear Hs.
  assert (Hsay : forall (line : string) (s' : self P),
            exists s2,
              run (dbg <- get_debug ;; when dbg (print line) ;;
                   ret (@None bytes)) s' = (Ok None, s2) /\
              serial s2 = serial s' /\
              writes (history s2) = writes (history s')).
  { intros line [p' [|] h']; eexists; (split; [reflexivity|]);
      cbn [serial history record]; rewrite ?writes_app; cbn [writes];
      rewrite ?app_nil_r; split; reflexivity. }
  destruct response as [[|status [|b rest]]|]; cbn [payload_of];
    try apply Hsay.
  cbn [truthy negb orb]. rewrite len_ge_2. cbv iota.
  rewrite run_bind. cbn [lift run]. rewrite getitem_first.
  destruct (int_of_byte status =? 0); cbn [negb]; [|apply Hsay].
  rewrite slice_tail.
  destruct s1 as [p1 [|] h1].
  2:{ eexists. split; [reflexivity|]. split; reflexivity. }
  destruct rest as [|c rest].
  - eexists. split; [reflexivity|].
    cbn [serial history record]. rewrite ?writes_app. cbn [writes].
    rewrite ?app_nil_r. split; reflexivity.
  - destruct (getitem_in_range (b :: c :: rest) (-2)) as (x & G2 & _).
    { rewrite !len_cons. pose proof (len_nonneg rest). lia. }
    destruct (getitem_in_range (b :: c :: rest) (-1)) as (y & G1 & _).
    { rewrite !len_cons. pose proof (len_nonneg rest). lia. }
    mrun.
    replace (2 <=? len (b :: c :: rest)) with true
      by (symmetry; apply Z.leb_le; rewrite !len_cons;
          pose proof (len_nonneg rest); lia).
    mrun. rewrite G2, G1. mrun.
    eexists. split; [reflexivity|].
    norm_state. rewrite ?writes_app. cbn [writes].
    rewrite ?app_nil_r. split; reflexivity.
Qed.

(** X10. [transceive_apdu] returns a payload exactly when the response has a
    zero status byte followed by at least one byte, and the payload is those
    following bytes; a zero status byte alone, a nonzero status, an empty
    response and a failed command all give [None]. In no case does it raise,
    read or write after [send_command] has returned. *)
Theorem transceive_apdu_payload
  (s s1 : self P) (target : Z) (apdu b_target : bytes)
  (response : option bytes) :
  bytes_of [target] = Ok b_target ->
  run (send_command CMD_IN_DATA_EXCHANGE (b_target ++ apdu))
      (say (transceiving_lines apdu) s)
  = (Ok response, s1) ->
  fst (run (transceive_apdu target apdu) s)
  = Ok (match response with
        | Some (status :: b :: rest) =>
            if int_of_byte status =? 0 then Some (b :: rest) else None
        | _ => None
        end) /\
  serial (snd (run (transceive_apdu target apdu) s)) = serial s1 /\
  writes (history (snd (run (transceive_apdu target apdu) s)))
  = writes (history s1).
Proof.
  intros Hb Hs.
  destruct (exchange_outcome s s1 target apdu b_target response Hb Hs)
    as (s2 & -> & H1 & H2).
  cbn [fst snd]. split; [reflexivity|]. split; assumption.
Qed.

(** X11. With a target number in 0..255, [transceive_apdu] can carry an APDU
    of at most 252 bytes: up to that size it never raises, whatever the
    handle returns, and writes one frame; beyond it the call raises
    [ValueError] before anything is written. *)
Theorem transceive_apdu_capacity (s : self P) (target : Z) (apdu : bytes) :
  0 <= target < 256 ->
  (len apdu <= 252 ->
   exists o frame,
     fst (run (transceive_apdu target apdu) s) = Ok o /\
     writes (history (snd (run (transceive_apdu target apdu) s)))
     = writes (history s) ++ [frame]) /\
  (252 < len apdu ->
   run (transceive_apdu target apdu) s
   = (Raise ValueError, say (transceiving_lines apdu) s)).
Proof.
  intros Ht.
  destruct (byte_of_int_in_range target Ht) as (bt & Ebt & _).
  assert (Hb : bytes_of [target] = Ok [bt])
    by (rewrite bytes_of_singleton, Ebt; reflexivity).
  assert (Hlen : len (CMD_IN_DATA_EXCHANGE ++ [bt] ++ apdu) = len apdu + 2).
  { cbn [app CMD_IN_DATA_EXCHANGE]. rewrite !len_cons. lia. }
  split.
  - intros Hl.
    destruct (build_frame_total (CMD_IN_DATA_EXCHANGE ++ [bt] ++ apdu))
      as [frame Eb]; [lia|].
    destruct (send_command_returns (say (transceiving_lines apdu) s)
                CMD_IN_DATA_EXCHANGE ([bt] ++ apdu) frame Eb)
      as (o & s1 & Hs & Hw).
    destruct (exchange_outcome s s1 target apdu [bt] o Hb Hs)
      as (s2 & E & _ & Hw2).
    exists (payload_of o), frame. rewrite E. cbn [fst snd].
    split; [reflexivity|]. rewrite Hw2, Hw, say_writes. reflexivity.
  - intros Hl. unfold transceive_apdu. mrun. rewrite Hb.
    pose proof (send_command_too_long (say (transceiving_lines apdu) s)
                  CMD_IN_DATA_EXCHANGE ([bt] ++ apdu) ltac:(lia)) as Hbad.
    revert Hbad.
    unfold say, transceiving_lines.
    destruct s as [p0 [|] h]; mrun; norm_state; cbn [map];
      intros ->; reflexivity.
Qed.

End Exchange.

Lemma transceive_apdu_payload_witness :
  bytes_of [1] = Ok [x01] /\
  fst (run (send_command CMD_IN_DATA_EXCHANGE ([x01] ++ [x00; xa4]))
         (say (transceiving_lines [x00; xa4]) (mock true stream_status_ok)))
  = Ok (Some [x00; x90; x00]) /\
  fst (run (transceive_apdu 1 [x00; xa4]) (mock true stream_status_ok))
  = Ok (Some [x90; x00]).
Proof.
  split; [reflexivity|]. split; [reflexivity|].
  apply (transceive_apdu_payload (mock true stream_status_ok)
           (snd (run (send_command CMD_IN_DATA_EXCHANGE ([x01] ++ [x00; xa4]))
                   (say (transceiving_lines [x00; xa4])
                      (mock true stream_status_ok))))
           1 [x00; xa4] [x01] (Some [x00; x90; x00])); reflexivity.
Defined.

Lemma transceive_apdu_capacity_witness :
  0 <= 1 < 256 /\
  253 = len (repeat x00 253) /\
  run (transceive_apdu 1 (repeat x00 253)) (mock false stream_status_ok)
  = (Raise ValueError, mock false stream_status_ok).
Proof.
  split; [lia|]. split; [reflexivity|].
  apply (transceive_apdu_capacity (mock false stream_status_ok) 1
           (repeat x00 253)); [lia | reflexivity].
Defined.

(** ** The rest of the command set *)

Section CommandSetOutcome.

Context {P : Type} {T : Transport P}.

(** X12. [get_firmware_version] never raises, whatever the handle returns:
    its guard asks for the four bytes it reads. It returns a version string
    exactly when the response has at least four bytes, formatted from bytes
    0 to 3, and [None] otherwise; its only effects are those of the one
    [send_command]. *)
Theorem get_firmware_version_outcome (s : self P) :
  exists response s1,
    run (send_command CMD_GET_FIRMWARE_VERSION []) s = (Ok response, s1) /\
    run get_firmware_version s
    = (Ok (match response with
           | Some (ic :: ver :: rev :: support :: _) =>
               Some (version_string (int_of_byte ic) (int_of_byte ver)
                       (int_of_byte rev) (int_of_byte support))
           | _ => None
           end), s1).
Proof.
  destruct (send_command_returns s CMD_GET_FIRMWARE_VERSION [] _ eq_refl)
    as (o & s1 & Hs & _).
  exists o, s1. split; [exact Hs|].
  unfold get_firmware_version. rewrite run_bind, Hs.
  destruct o as [[|ic [|ver [|rev [|support rest]]]]|]; try reflexivity.
  cbn [truthy andb].
  replace (4 <=? len (ic :: ver :: rev :: support :: rest)) with true
    by (symmetry; apply Z.leb_le; rewrite !len_cons;
        pose proof (len_nonneg rest); lia).
  cbv iota.
  assert (G1 : getitem (ic :: ver :: rev :: support :: rest) 1
               = Ok (int_of_byte ver))
    by (apply (getitem_nth _ 1 ver); reflexivity).
  assert (G2 : getitem (ic :: ver :: rev :: support :: rest) 2
               = Ok (int_of_byte rev))
    by (apply (getitem_nth _ 2 rev); reflexivity).
  assert (G3 : getitem (ic :: ver :: rev :: support :: rest) 3
               = Ok (int_of_byte support))
    by (apply (getitem_nth _ 3 support); reflexivity).
  rewrite run_bind. cbn [lift run]. rewrite getitem_first.
  rewrite run_bind. cbn [lift run]. rewrite G1.
  rewrite run_bind. cbn [lift run]. rewrite G2.
  rewrite run_bind. cbn [lift run]. rewrite G3.
  reflexivity.
Qed.

(** [sam_configuration] given what its [send_command] returned. *)
Lemma sam_configuration_run
  (s s1 : self P) (response : option bytes) :
  run (send_command CMD_SAM_CONFIGURATION [x01; x14; x01])
      (say ["🔧 Configuring SAM (Normal mode)..."%string] s)
  = (Ok response, s1) ->
  run sam_configuration s
  = (Ok (match response with Some _ => true | None => false end), s1).
Proof.
  intros Hs. unfold sam_configuration. mrun. revert Hs. unfold say.
  destruct s as [p0 [|] h]; mrun; norm_state; cbn [map];
    intros ->; reflexivity.
Qed.

(** [init_as_target] given what its [send_command] returned. *)
Lemma init_as_target_run
  (s s1 : self P) (response : option bytes) :
  run (send_command CMD_TG_INIT_AS_TARGET
         [x04; x00; x04; x08; x12; x34; x56; x20;
          x00; x00; x00; x00; x00; x00])
      (say [String.append nl "🎭 Initializing card emulation mode..."] s)
  = (Ok response, s1) ->
  fst (run init_as_target s)
  = Ok (match response with Some (_ :: _) => true | _ => false end) /\
  serial (snd (run init_as_target s)) = serial s1 /\
  writes (history (snd (run init_as_target s))) = writes (history s1).
Proof.
  intros Hs.
  assert (E : run init_as_target s
              = run (if truthy response then
                       print "✅ Card emulation mode active" ;;
                       print "   Phone can now read this PN532 as a card" ;;
                       ret true
                     else
                       print "❌ Failed to enter emulation mode" ;;
                       ret false) s1).
  { unfold init_as_target. mrun.
    change (bytes_of [4]) with (@Ok bytes [x04]). cbn [app].
    revert Hs. unfold say.
    destruct s as [p0 [|] h]; mrun; norm_state; cbn [map];
      intros ->; reflexivity. }
  rewrite E.
  destruct response as [[|b r]|]; cbn [truthy]; mrun; norm_state;
    cbn [fst snd serial history]; rewrite ?writes_app; cbn [writes];
    rewrite ?app_nil_r; repeat split; reflexivity.
Qed.

(** X13. [sam_configuration] never raises and transmits exactly one frame,
    00 00 FF 05 FB D4 14 01 14 01 02 00. It returns [True] for every decoded
    response, an empty payload included, and [False] only when
    [send_command] returned [None]. *)
Theorem sam_configuration_outcome (s : self P) :
  exists response s1,
    run (send_command CMD_SAM_CONFIGURATION [x01; x14; x01])
        (say ["🔧 Configuring SAM (Normal mode)..."%string] s)
    = (Ok response, s1) /\
    run sam_configuration s
    = (Ok (match response with Some _ => true | None => false end), s1) /\
    writes (history s1)
    = writes (history s)
      ++ [[x00; x00; xff; x05; xfb; xd4; x14; x01; x14; x01; x02; x00]].
Proof.
  destruct (send_command_returns
              (say ["🔧 Configuring SAM (Normal mode)..."%string] s)
              CMD_SAM_CONFIGURATION [x01; x14; x01] _ eq_refl)
    as (o & s1 & Hs & Hw).
  exists o, s1. split; [exact Hs|]. rewrite say_writes in Hw.
  split; [|exact Hw]. apply sam_configuration_run. exact Hs.
Qed.

(** X14. [init_as_target] never raises and transmits exactly one frame, whose
    data are 8C 04 00 04 08 12 34 56 20 and six zero bytes. It returns [True]
    only for a response with at least one byte: an empty payload counts as
    failure, like [None]. *)
Theorem init_as_target_outcome (s : self P) :
  exists response s1,
    run (send_command CMD_TG_INIT_AS_TARGET
           [x04; x00; x04; x08; x12; x34; x56; x20;
            x00; x00; x00; x00; x00; x00])
        (say [String.append nl "🎭 Initializing card emulation mode..."] s)
    = (Ok response, s1) /\
    fst (run init_as_target s)
    = Ok (match response with Some (_ :: _) => true | _ => false end) /\
    serial (snd (run init_as_target s)) = serial s1 /\
    writes (history (snd (run init_as_target s)))
    = writes (history s)
      ++ [[x00; x00; xff; x10; xf0; xd4; x8c; x04; x00; x04; x08; x12; x34;
           x56; x20; x00; x00; x00; x00; x00; x00; xd4; x00]].
Proof.
  destruct (send_command_returns
              (say [String.append nl "🎭 Initializing card emulation mode..."] s)
              CMD_TG_INIT_AS_TARGET
              [x04; x00; x04; x08; x12; x34; x56; x20;
               x00; x00; x00; x00; x00; x00] _ eq_refl)
    as (o & s1 & Hs & Hw).
  exists o, s1. split; [exact Hs|]. rewrite say_writes in Hw.
  destruct (init_as_target_run s s1 o Hs) as (H1 & H2 & H3).
  split; [exact H1|]. split; [exact H2|]. rewrite H3. exact Hw.
Qed.

(** X15. [release_target] does not report failure: for a target number in
    0..255 it returns normally whatever the handle answers, after writing
    one frame, the one the encoder builds for 52 followed by the target
    number. *)
Theorem release_target_outcome (s : self P) (target : Z) :
  0 <= target < 256 ->
  exists (b : byte) (frame : bytes) (s' : self P),
    int_of_byte b = target /\
    _build_frame [x52; b] = Ok frame /\
    run (release_target target) s = (Ok tt, s') /\
    writes (history s') = writes (history s) ++ [frame].
Proof.
  intros Ht. destruct (byte_of_int_in_range target Ht) as (b & Eb & Hb).
  destruct (build_frame_total [x52; b]) as [frame Ef];
    [unfold len; cbn; lia|].
  destruct (send_command_returns (say [releasing_line target] s)
              CMD_IN_RELEASE [b] frame Ef) as (o & s1 & Hs & Hw).
  exists b, frame, s1. split; [exact Hb|]. split; [exact Ef|].
  rewrite say_writes in Hw. split; [|exact Hw].
  unfold release_target. mrun. rewrite bytes_of_singleton, Eb.
  revert Hs. unfold say.
  destruct s as [p0 [|] h]; mrun; norm_state; cbn [map];
    intros ->; reflexivity.
Qed.

(** X16. [get_target_data] returns the bytes after a zero status byte when
    there is at least one, and [None] for every other response; it never
    raises and adds no serial traffic to that of its [send_command]. *)
Theorem get_target_data_outcome (s : self P) :
  exists response s1,
    run (send_command CMD_TG_GET_DATA []) s = (Ok response, s1) /\
    fst (run get_target_data s)
    = Ok (match response with
          | Some (status :: b :: rest) =>
              if int_of_byte status =? 0 then Some (b :: rest) else None
          | _ => None
          end) /\
    serial (snd (run get_target_data s)) = serial s1 /\
    writes (history (snd (run get_target_data s))) = writes (history s1).
Proof.
  destruct (send_command_returns s CMD_TG_GET_DATA [] _ eq_refl)
    as (o & s1 & Hs & _).
  exists o, s1. split; [exact Hs|].
  unfold get_target_data. rewrite run_bind, Hs.
  destruct o as [[|status [|b rest]]|];
    try (cbn [fst snd]; repeat split; reflexivity).
  cbn [truthy andb].
  replace (1 <? len (status :: b :: rest)) with true
    by (symmetry; apply Z.ltb_lt; rewrite !len_cons;
        pose proof (len_nonneg rest); lia).
  cbv iota. rewrite run_bind. cbn [lift run]. rewrite getitem_first.
  rewrite slice_tail.
  destruct (int_of_byte status =? 0);
    [|cbn [fst snd]; repeat split; reflexivity].
  destruct s1 as [p1 [|] h1]; mrun; norm_state; cbn [fst snd serial history];
    rewrite ?writes_app; cbn [writes]; rewrite ?app_nil_r;
    repeat split; reflexivity.
Qed.

(** X17. [set_target_data] accepts at most 253 bytes. Up to that size it
    never raises, writes one frame and returns [True] exactly when the
    response starts with a zero byte; beyond it the call raises [ValueError]
    and nothing is written. *)
Theorem set_target_data_outcome (s : self P) (data : bytes) :
  (len data <= 253 ->
   exists response s1 frame,
     run (send_command CMD_TG_SET_DATA data) s = (Ok response, s1) /\
     fst (run (set_target_data data) s)
     = Ok (match response with
           | Some (first :: _) => int_of_byte first =? 0
           | _ => false
           end) /\
     _build_frame (CMD_TG_SET_DATA ++ data) = Ok frame /\
     writes (history (snd (run (set_target_data data) s)))
     = writes (history s) ++ [frame]) /\
  (253 < len data ->
   run (set_target_data data) s = (Raise ValueError, s)).
Proof.
  assert (Hlen : len (CMD_TG_SET_DATA ++ data) = len data + 1)
    by apply len_cons.
  split.
  - intros Hl.
    destruct (build_frame_total (CMD_TG_SET_DATA ++ data)) as [frame Ef];
      [lia|].
    destruct (send_command_returns s CMD_TG_SET_DATA data frame Ef)
      as (o & s1 & Hs & Hw).
    exists o, s1, frame. split; [exact Hs|].
    unfold set_target_data. rewrite run_bind, Hs.
    destruct o as [[|first rest]|];
      try (cbn [fst snd]; repeat split; try reflexivity; assumption).
    cbn [truthy]. rewrite run_bind. cbn [lift run]. rewrite getitem_first.
    destruct (int_of_byte first =? 0);
      [|cbn [fst snd]; repeat split; try reflexivity; assumption].
    destruct s1 as [p1 [|] h1]; mrun; norm_state; cbn [fst snd serial history];
      rewrite ?writes_app; cbn [writes]; rewrite ?app_nil_r;
      repeat split; try reflexivity; assumption.
  - intros Hl. unfold set_target_data. rewrite run_bind.
    rewrite send_command_too_long by lia. reflexivity.
Qed.

End CommandSetOutcome.

Lemma release_target_outcome_witness :
  0 <= 1 < 256 /\
  exists (b : byte) (frame : bytes) (s' : self MockSerial),
    int_of_byte b = 1 /\
    _build_frame [x52; b] = Ok frame /\
    run (release_target 1) (mock true NACK) = (Ok tt, s') /\
    writes (history s') = writes (history (mock true NACK)) ++ [frame].
Proof.
  split; [lia|]. apply (release_target_outcome (mock true NACK) 1). lia.
Defined.

(** ** An empty payload on the wire *)

(** [send_command] on a stream that carries the ACK and a frame of declared
    length 0 whose body byte is 0x00 or 0x80. *)
Lemma mock_send_command_empty_payload
  (s : self MockSerial) (command params : bytes) (b : byte) (tail : bytes) :
  len (command ++ params) <= 254 ->
  b = x00 \/ b = x80 ->
  rx (serial s) = ACK ++ [x00; x00; xff; x00; x00; b] ++ tail ->
  exists s1, run (send_command command params) s = (Ok (Some []), s1).
Proof.
  intros Hlen Hb Hrx.
  destruct (build_frame_total _ Hlen) as [frame Eb].
  destruct s as [[input out] dbg hist]. cbn [rx serial] in Hrx. subst input.
  set (s := {| serial := _ |}).
  assert (Er : tr_read 6 (tr_write frame (serial s))
               = (ACK, {| rx := [x00; x00; xff; x00; x00; b] ++ tail;
                          tx := out ++ frame |}))
    by (apply (mock_read_app ACK); reflexivity).
  rewrite (send_command_run s command params frame ACK _ Eb Er).
  cbv zeta. change (bytes_eqb ACK ACK) with true. cbv iota.
  match goal with
  | |- context [run _read_frame ?s2] =>
      destruct (mock_read_frame_body s2 x00 x00 [b] tail eq_refl eq_refl)
        as (t & d & Gt & Gd & E);
      [rewrite say_serial; reflexivity|];
      rewrite E; clear E
  end.
  change (getitem [b] 0) with (Ok (int_of_byte b)) in Gt.
  change (getitem [b] (-1)) with (Ok (int_of_byte b)) in Gd.
  injection Gt as <-. injection Gd as <-.
  change (slice [b] (Some 1) (Some (-1))) with (@nil byte).
  replace (Z.land (int_of_byte b + sum [] + int_of_byte b) 255 =? 0) with true
    by (destruct Hb as [-> | ->]; reflexivity).
  eexists. reflexivity.
Qed.

(** X18. The callers disagree on an empty payload. When the handle delivers
    the ACK and then a frame of declared length 0 that the decoder accepts
    (body byte 0x00 or 0x80), [sam_configuration] reports success, while
    [init_as_target] reports failure and [get_firmware_version] and
    [get_target_data] return [None]. *)
Theorem empty_payload_on_the_wire
  (s : self MockSerial) (b : byte) (tail : bytes) :
  b = x00 \/ b = x80 ->
  rx (serial s) = ACK ++ [x00; x00; xff; x00; x00; b] ++ tail ->
  fst (run sam_configuration s) = Ok true /\
  fst (run init_as_target s) = Ok false /\
  fst (run get_firmware_version s) = Ok None /\
  fst (run get_target_data s) = Ok None.
Proof.
  intros Hb Hrx.
  split; [|split; [|split]].
  - destruct (mock_send_command_empty_payload
                (say ["🔧 Configuring SAM (Normal mode)..."%string] s)
                CMD_SAM_CONFIGURATION [x01; x14; x01] b tail
                ltac:(unfold len; cbn; lia) Hb
                ltac:(rewrite say_serial; exact Hrx)) as (s1 & Hs).
    rewrite (sam_configuration_run s s1 _ Hs). reflexivity.
  - destruct (mock_send_command_empty_payload
                (say [String.append nl "🎭 Initializing card emulation mode..."] s)
                CMD_TG_INIT_AS_TARGET
                [x04; x00; x04; x08; x12; x34; x56; x20;
                 x00; x00; x00; x00; x00; x00] b tail
                ltac:(unfold len; cbn; lia) Hb
                ltac:(rewrite say_serial; exact Hrx)) as (s1 & Hs).
    destruct (init_as_target_run s s1 _ Hs) as (H & _). exact H.
  - destruct (mock_send_command_empty_payload s CMD_GET_FIRMWARE_VERSION []
                b tail ltac:(unfold len; cbn; lia) Hb Hrx) as (s1 & Hs).
    unfold get_firmware_version. rewrite run_bind, Hs. reflexivity.
  - destruct (mock_send_command_empty_payload s CMD_TG_GET_DATA []
                b tail ltac:(unfold len; cbn; lia) Hb Hrx) as (s1 & Hs).
    unfold get_target_data. rewrite run_bind, Hs. reflexivity.
Qed.

Lemma empty_payload_on_the_wire_witness :
  (x80 = x00 \/ x80 = x80) /\
  fst (run sam_configuration (mock false (ACK ++ stream_zero_length))) = Ok true /\
  fst (run init_as_target (mock false (ACK ++ stream_zero_length))) = Ok false /\
  fst (run get_firmware_version (mock false (ACK ++ stream_zero_length)))
  = Ok None /\
  fst (run get_target_data (mock false (ACK ++ stream_zero_length))) = Ok None.
Proof.
  split; [right; reflexivity|].
  apply (empty_payload_on_the_wire (mock false (ACK ++ stream_zero_length))
           x80 [x00]); [right; reflexivity | reflexivity].
Defined.

(** ** The EMV test of the scenarios *)

Lemma printed_app (l l' : list effect) :
  printed (l ++ l') = printed l ++ printed l'.
Proof.
  induction l as [|e l IH]; [reflexivity|].
  destruct e; cbn [app printed]; rewrite ?IH; reflexivity.
Qed.

Section Scenarios.

Context {P : Type} {T : Transport P}.

(** X19. [test_emv_commands] with a target number in 0..255 never raises. It
    transmits one frame, the data-exchange command carrying the target
    number and the 20-byte SELECT PPSE APDU, and its last line reports
    success exactly when the response had a zero status byte followed by at
    least one byte. *)
Theorem test_emv_commands_outcome (s : self P) (target : Z) :
  0 <= target < 256 ->
  exists (b : byte) (frame : bytes) (response : option bytes) (s1 s' : self P),
    int_of_byte b = target /\
    _build_frame
      ([x40; b] ++ [x00; xa4; x04; x00; x0e; x32; x50; x41; x59; x2e; x53;
                    x59; x53; x2e; x44; x44; x46; x30; x31; x00])
    = Ok frame /\
    run (send_command CMD_IN_DATA_EXCHANGE
           ([b] ++ [x00; xa4; x04; x00; x0e; x32; x50; x41; x59; x2e; x53;
                    x59; x53; x2e; x44; x44; x46; x30; x31; x00]))
        (say (transceiving_lines
                [x00; xa4; x04; x00; x0e; x32; x50; x41; x59; x2e; x53;
                 x59; x53; x2e; x44; x44; x46; x30; x31; x00])
           (record (Print (String.append nl "📋 Testing EMV commands...")) s))
    = (Ok response, s1) /\
    run (test_emv_commands target) s = (Ok tt, s') /\
    writes (history s') = writes (history s) ++ [frame] /\
    last (printed (history s')) EmptyString
    = match response with
      | Some (status :: _ :: _) =>
          if int_of_byte status =? 0 then "✅ SELECT PPSE successful"%string
          else "❌ SELECT PPSE failed"%string
      | _ => "❌ SELECT PPSE failed"%string
      end.
Proof.
  intros Ht. destruct (byte_of_int_in_range target Ht) as (b & Eb & Hb).
  set (ppse := [x00; xa4; x04; x00; x0e; x32; x50; x41; x59; x2e; x53;
                x59; x53; x2e; x44; x44; x46; x30; x31; x00]).
  set (s0 := record (Print (String.append nl "📋 Testing EMV commands...")) s).
  assert (Hbt : bytes_of [target] = Ok [b])
    by (rewrite bytes_of_singleton, Eb; reflexivity).
  destruct (build_frame_total (CMD_IN_DATA_EXCHANGE ++ [b] ++ ppse))
    as [frame Ef]; [unfold len; cbn; lia|].
  destruct (send_command_returns (say (transceiving_lines ppse) s0)
              CMD_IN_DATA_EXCHANGE ([b] ++ ppse) frame Ef)
    as (o & s1 & Hs & Hw).
  destruct (exchange_outcome s0 s1 target ppse [b] o Hbt Hs)
    as (s2 & E & _ & Hw2).
  assert (Hrun : run (test_emv_commands target) s
                 = run (if truthy (payload_of o)
                        then print "✅ SELECT PPSE successful"
                        else print "❌ SELECT PPSE failed") s2).
  { unfold test_emv_commands. rewrite run_bind. cbn [print run].
    fold s0. rewrite run_bind. cbn [lift run].
    change (fromhex "00A404000E325041592E5359532E444446303100")
      with (@Ok bytes ppse).
    cbv iota. rewrite run_bind, E. reflexivity. }
  assert (Hw0 : writes (history s2) = writes (history s) ++ [frame]).
  { rewrite Hw2, Hw, say_writes. subst s0. cbn [record history].
    rewrite writes_app. cbn [writes]. rewrite app_nil_r. reflexivity. }
  exists b, frame, o, s1.
  assert (Hpay : truthy (payload_of o)
                 = match o with
                   | Some (status :: _ :: _) => int_of_byte status =? 0
                   | _ => false
                   end).
  { destruct o as [[|status [|x rest]]|]; try reflexivity.
    cbn [payload_of]. destruct (int_of_byte status =? 0); reflexivity. }
  destruct (truthy (payload_of o)) eqn:Et; rewrite Hrun; mrun;
    eexists; (split; [exact Hb|]); (split; [exact Ef|]);
    (split; [exact Hs|]); (split; [reflexivity|]);
    norm_state; rewrite writes_app, printed_app; cbn [writes printed];
    rewrite app_nil_r, last_last; (split; [exact Hw0|]);
    destruct o as [[|status [|x rest]]|]; try discriminate Hpay;
    try reflexivity; rewrite <- Hpay; reflexivity.
Qed.

End Scenarios.

Lemma test_emv_commands_outcome_witness :
  0 <= 1 < 256 /\
  exists (b : byte) (frame : bytes) (s' : self MockSerial),
    int_of_byte b = 1 /\
    run (test_emv_commands 1) (mock false stream_status_ok) = (Ok tt, s') /\
    writes (history s') = writes (history (mock false stream_status_ok))
                          ++ [frame].
Proof.
  split; [lia|].
  destruct (test_emv_commands_outcome (mock false stream_status_ok) 1
              ltac:(lia))
    as (b & frame & response & s1 & s' & Hb & _ & _ & E & Hw & _).
  exists b, frame, s'. split; [exact Hb|]. split; [exact E | exact Hw].
Defined.
